(** * Kitchen model (kitchen.hpp / kitchen.cpp): quantities, tools, timer,
      temperature profile, oven and the chicken-soup procedure.

    The C++ classes are embedded shallowly.  A [double] is an IEEE-754
    binary64 value, taken from the Standard Library's executable
    specification [SpecFloat] (precision 53, emax 1024), so rounding,
    infinities and NaN behave as on the machine.  An [int] is an integer of
    [Z] reduced to 32 bits after each arithmetic operation.  A method that
    mutates its object, may throw, or both, is a function from the object
    to a completion paired with the object as the call leaves it. *)

From Stdlib Require Import ZArith Bool List Lia String.
From Stdlib Require Import SpecFloat.
Import ListNotations.
Local Open Scope Z_scope.

(** ** Machine integers *)

Module Int32.

Definition INT_MIN : Z := - 2 ^ 31.
Definition INT_MAX : Z := 2 ^ 31 - 1.

Definition in_range (z : Z) : Prop := INT_MIN <= z <= INT_MAX.

(** Two's-complement reduction.  The C++ standard leaves signed overflow
    undefined; the usual targets wrap, and that is what is written here. *)
Definition wrap (z : Z) : Z := (z + 2 ^ 31) mod 2 ^ 32 - 2 ^ 31.

Definition add (a b : Z) : Z := wrap (a + b).
Definition sub (a b : Z) : Z := wrap (a - b).
Definition mul (a b : Z) : Z := wrap (a * b).
(** [a / b] of C++ truncates toward zero. *)
Definition div (a b : Z) : Z := wrap (Z.quot a b).

End Int32.

(** ** Doubles *)

Module Double.

Definition prec : Z := 53.
Definition emax : Z := 1024.

Definition double : Type := spec_float.

Definition add : double -> double -> double := SFadd prec emax.
Definition sub : double -> double -> double := SFsub prec emax.
Definition mul : double -> double -> double := SFmul prec emax.
Definition div : double -> double -> double := SFdiv prec emax.

(** The comparison operators of C++; each is false when an operand is NaN. *)
Definition ltb (x y : double) : bool := SFltb x y.
Definition leb (x y : double) : bool := SFleb x y.
Definition gtb (x y : double) : bool := SFltb y x.
Definition geb (x y : double) : bool := SFleb y x.
Definition eqb (x y : double) : bool := SFeqb x y.

(** The literal [m * 2^e], rounded to nearest even. *)
Definition lit (m e : Z) : double := binary_normalize prec emax m e false.

(** [static_cast<double>(i)], and integer-valued literals such as [180.0]. *)
Definition of_int (i : Z) : double := lit i 0.

Definition zero : double := S754_zero false.

Definition is_finite (x : double) : bool :=
  match x with
  | S754_zero _ | S754_finite _ _ _ => true
  | S754_infinity _ | S754_nan => false
  end.

End Double.

Definition double : Type := Double.double.

(** ** Exceptions and the method monad *)

(** The exception classes of kitchen.hpp; the message text is not kept. *)
Inductive exn : Type :=
| IngredientNotFoundException
| NotEnoughIngredientException
| ToolNotAvailableException
| InvalidTemperatureException
| TimerNotSetException
| OvercookedDishException
| UndercookedDishException
| StorageException.

(** How a call ends.  [Undefined] is a dereference of a null or dangling
    pointer; [OutOfFuel] belongs to the model only: a loop was cut before
    its condition turned false. *)
Inductive completion (A : Type) : Type :=
| Normal (a : A)
| Throw (e : exn)
| Undefined
| OutOfFuel.

Arguments Normal {A} a.
Arguments Throw {A} e.
Arguments Undefined {A}.
Arguments OutOfFuel {A}.

(** A method of an object of type [S] with result [A]: the second component
    is the object when the call returns or when the exception leaves it. *)
Definition M (S A : Type) : Type := S -> completion A * S.

Definition ret {S A} (a : A) : M S A := fun s => (Normal a, s).

Definition bind {S A B} (m : M S A) (k : A -> M S B) : M S B :=
  fun s =>
    match m s with
    | (Normal a, s') => k a s'
    | (Throw e, s') => (Throw e, s')
    | (Undefined, s') => (Undefined, s')
    | (OutOfFuel, s') => (OutOfFuel, s')
    end.

Definition throw {S A} (e : exn) : M S A := fun s => (Throw e, s).
Definition undefined {S A} : M S A := fun s => (Undefined, s).
Definition get {S} : M S S := fun s => (Normal s, s).
Definition modify {S} (f : S -> S) : M S unit := fun s => (Normal tt, f s).

(** A [const] method that may throw. *)
Definition const_call {S A} (f : S -> completion A) : M S A :=
  fun s => (f s, s).

(** A [const] method that cannot throw. *)
Definition reads {S A} (f : S -> A) : M S A := fun s => (Normal (f s), s).

(** A call on a member (or on the base-class part) of the object. *)
Definition zoom {S T A} (view : S -> T) (update : T -> S -> S) (m : M T A)
  : M S A :=
  fun s => let (r, t') := m (view s) in (r, update t' s).

Declare Scope method_scope.
Delimit Scope method_scope with method.
Notation "x <- m ;; k" := (bind m (fun x => k))
  (at level 61, m at next level, right associativity) : method_scope.
Notation "m ;; k" := (bind m (fun _ => k))
  (at level 61, right associativity) : method_scope.
Local Open Scope method_scope.

(** [while (cond) body], with the loop-carried locals in [a]. *)
Fixpoint while_ {S A} (fuel : nat) (cond : A -> M S bool)
  (body : A -> M S A) (a : A) : M S A :=
  match fuel with
  | O => fun s => (OutOfFuel, s)
  | Datatypes.S fuel' =>
      b <- cond a ;;
      if b then (a' <- body a ;; while_ fuel' cond body a') else ret a
  end.

(** ** Unit, Quantity, Ingredient *)

Module Unit.

Record t : Type := mk {
  name : string;
  gramsPerUnit : double;
  liquid : bool;
  id : Z
}.

Definition toGrams (u : t) (amount : double) : double :=
  Double.mul amount (gramsPerUnit u).

Definition isLiquid (u : t) : bool := liquid u.
Definition getId (u : t) : Z := id u.

End Unit.

Module Quantity.

(** [unit] is the [Unit*] of the class, [None] for [nullptr].  A [Unit] has
    no mutator, so the pointee is kept by value. *)
Record t : Type := mk {
  value : double;
  unit : option Unit.t;
  approximate : bool;
  id : Z
}.

Definition toGrams (q : t) : completion double :=
  match unit q with
  | None => Throw StorageException
  | Some u => Normal (Unit.toGrams u (value q))
  end.

Definition scale (factor : double) : M t Datatypes.unit :=
  modify (fun q =>
    mk (Double.mul (value q) factor) (unit q) (approximate q) (id q)).

Definition isZero (q : t) : bool := Double.leb (value q) Double.zero.

End Quantity.

Module Ingredient.

Record t : Type := mk {
  name : string;
  quantity : Quantity.t;
  calories : double;
  perishable : bool
}.

Definition set_quantity (q : Quantity.t) (i : t) : t :=
  mk (name i) q (calories i) (perishable i).

Definition addAmount (v : double) : M t unit :=
  oldGrams <- const_call (fun i => Quantity.toGrams (quantity i)) ;;
  let newGrams := Double.add oldGrams v in
  if Double.gtb oldGrams Double.zero then
    let factor := Double.div newGrams oldGrams in
    zoom quantity set_quantity (Quantity.scale factor)
  else ret tt.

Definition useAmount (vGrams : double) : M t unit :=
  grams <- const_call (fun i => Quantity.toGrams (quantity i)) ;;
  if Double.gtb vGrams grams then throw NotEnoughIngredientException
  else if Double.gtb grams Double.zero then
    let factor := Double.div (Double.sub grams vGrams) grams in
    zoom quantity set_quantity (Quantity.scale factor)
  else ret tt.

Definition isPerishable (i : t) : bool := perishable i.

(** The mass in grams the two mutators compute from, when the unit is
    bound. *)
Definition mass (i : t) : completion double := Quantity.toGrams (quantity i).

End Ingredient.

(** ** KitchenTool and the two heated vessels *)

Module KitchenTool.

Record t : Type := mk {
  name : string;
  clean : bool;
  available : bool;
  busy : bool;
  durability : Z
}.

Definition set_available (a : bool) (k : t) : t :=
  mk (name k) (clean k) a (busy k) (durability k).
Definition set_busy (b : bool) (k : t) : t :=
  mk (name k) (clean k) (available k) b (durability k).
Definition set_durability (d : Z) (k : t) : t :=
  mk (name k) (clean k) (available k) (busy k) d.
Definition set_clean (c : bool) (k : t) : t :=
  mk (name k) c (available k) (busy k) (durability k).

(** [KitchenTool(n, c, a, d)]: [busy] starts false. *)
Definition new (n : string) (c a : bool) (d : Z) : t := mk n c a false d.

Definition useTool : M t unit :=
  k <- get ;;
  if negb (available k) || negb (clean k) || (durability k <=? 0) then
    throw ToolNotAvailableException
  else
    modify (set_busy true) ;;
    modify (fun k => set_durability (Int32.sub (durability k) 1) k) ;;
    k <- get ;;
    (if durability k <=? 0 then
       modify (set_durability 0) ;; modify (set_available false)
     else ret tt) ;;
    modify (set_busy false).

Definition cleanTool : M t unit := modify (set_clean true).

Definition breakTool : M t unit :=
  modify (set_available false) ;; modify (set_durability 0).

Definition isAvailable (k : t) : bool :=
  available k && clean k && (0 <? durability k).

End KitchenTool.

Module Pan.

(** [base] is the [KitchenTool] sub-object of the derived class. *)
Record t : Type := mk {
  base : KitchenTool.t;
  diameter : double;
  nonStick : bool;
  onStove : bool
}.

Definition set_base (b : KitchenTool.t) (p : t) : t :=
  mk b (diameter p) (nonStick p) (onStove p).
Definition set_onStove (o : bool) (p : t) : t :=
  mk (base p) (diameter p) (nonStick p) o.

Definition new (n : string) (d : double) (ns on : bool) : t :=
  mk (KitchenTool.new n true true 100) d ns on.

Definition heatUp : M t unit :=
  ok <- reads (fun p => KitchenTool.isAvailable (base p)) ;;
  if negb ok then throw ToolNotAvailableException
  else
    zoom base set_base KitchenTool.useTool ;;
    modify (set_onStove true).

Definition coolDown : M t unit := modify (set_onStove false).
Definition isHot (p : t) : bool := onStove p.

End Pan.

Module Pot.

Record t : Type := mk {
  base : KitchenTool.t;
  volume : double;
  hasLid : bool;
  onStove : bool
}.

Definition set_base (b : KitchenTool.t) (p : t) : t :=
  mk b (volume p) (hasLid p) (onStove p).
Definition set_onStove (o : bool) (p : t) : t :=
  mk (base p) (volume p) (hasLid p) o.

Definition new (n : string) (v : double) (lid on : bool) : t :=
  mk (KitchenTool.new n true true 100) v lid on.

Definition startBoil : M t unit :=
  ok <- reads (fun p => KitchenTool.isAvailable (base p)) ;;
  if negb ok then throw ToolNotAvailableException
  else
    zoom base set_base KitchenTool.useTool ;;
    modify (set_onStove true).

Definition stopBoil : M t unit := modify (set_onStove false).

Definition canBoil (p : t) (liters : double) : bool :=
  Double.leb liters (volume p).

End Pot.

(** ** Timer *)

Module Timer.

Record t : Type := mk {
  seconds : Z;
  running : bool;
  elapsed : Z;
  id : Z
}.

(** [Timer()]: every argument defaulted. *)
Definition default : t := mk 0 false 0 0.

Definition start (s : Z) : M t unit :=
  if s <=? 0 then throw TimerNotSetException
  else modify (fun tm => mk s true 0 (id tm)).

Definition tick (delta : Z) : M t unit :=
  if delta <=? 0 then ret tt
  else
    tm <- get ;;
    if negb (running tm) then ret tt
    else
      modify (fun tm =>
        mk (seconds tm) (running tm) (Int32.add (elapsed tm) delta) (id tm)) ;;
      tm <- get ;;
      if seconds tm <=? elapsed tm then
        modify (fun tm => mk (seconds tm) false (seconds tm) (id tm))
      else ret tt.

Definition isFinished (tm : t) : bool :=
  negb (running tm) && (seconds tm <=? elapsed tm) && (0 <? seconds tm).

End Timer.

(** ** TemperatureProfile *)

Module TemperatureProfile.

Record t : Type := mk {
  startTemp : double;
  targetTemp : double;
  duration : Z;
  gradual : bool
}.

(** [TemperatureProfile()]: 20.0, 180.0, 600, true. *)
Definition default : t := mk (Double.of_int 20) (Double.of_int 180) 600 true.

Definition currentTemp (p : t) (elapsed : Z) : double :=
  if negb (gradual p) || (duration p <=? elapsed) || (duration p <=? 0) then
    targetTemp p
  else
    let ratio := Double.div (Double.of_int elapsed) (Double.of_int (duration p)) in
    Double.add (startTemp p)
      (Double.mul (Double.sub (targetTemp p) (startTemp p)) ratio).

Definition isReached (p : t) (current : double) : bool :=
  Double.geb current (targetTemp p).

Definition reset (s tg : double) (d : Z) : M t unit :=
  modify (fun p => mk s tg d (gradual p)).

End TemperatureProfile.

(** ** Oven and Stove *)

Module Oven.

Record t : Type := mk {
  temperature : double;
  on : bool;
  doorClosed : bool;
  bakingTimer : Timer.t;
  profile : TemperatureProfile.t;
  elapsedSeconds : Z
}.

Definition set_temperature (x : double) (o : t) : t :=
  mk x (on o) (doorClosed o) (bakingTimer o) (profile o) (elapsedSeconds o).
Definition set_on (b : bool) (o : t) : t :=
  mk (temperature o) b (doorClosed o) (bakingTimer o) (profile o) (elapsedSeconds o).
Definition set_doorClosed (b : bool) (o : t) : t :=
  mk (temperature o) (on o) b (bakingTimer o) (profile o) (elapsedSeconds o).
Definition set_bakingTimer (tm : Timer.t) (o : t) : t :=
  mk (temperature o) (on o) (doorClosed o) tm (profile o) (elapsedSeconds o).
Definition set_profile (p : TemperatureProfile.t) (o : t) : t :=
  mk (temperature o) (on o) (doorClosed o) (bakingTimer o) p (elapsedSeconds o).
Definition set_elapsedSeconds (e : Z) (o : t) : t :=
  mk (temperature o) (on o) (doorClosed o) (bakingTimer o) (profile o) e.

(** [Oven(t, o, d)]: the timer and the profile are default-constructed. *)
Definition new (tmp : double) (o d : bool) : t :=
  mk tmp o d Timer.default TemperatureProfile.default 0.

(** [Oven()]: 0.0, false, true. *)
Definition default : t := new Double.zero false true.

(** [warmupMinutes] defaults to 10 in the declaration. *)
Definition preheat (tg : double) (warmupMinutes : Z) : M t unit :=
  if Double.leb tg Double.zero || Double.gtb tg (Double.of_int 300) then
    throw InvalidTemperatureException
  else
    o <- get ;;
    if negb (doorClosed o) then throw InvalidTemperatureException
    else if warmupMinutes <=? 0 then throw InvalidTemperatureException
    else
      zoom profile set_profile
        (TemperatureProfile.reset (temperature o) tg (Int32.mul warmupMinutes 60)) ;;
      modify (set_elapsedSeconds 0) ;;
      modify (set_on true).

Definition turnOff : M t unit :=
  modify (set_on false) ;; modify (set_temperature Double.zero).

Definition closeDoor : M t unit := modify (set_doorClosed true).
Definition openDoor : M t unit := modify (set_doorClosed false).

Definition setTimerMinutes (minutes : Z) : M t unit :=
  if minutes <=? 0 then throw TimerNotSetException
  else zoom bakingTimer set_bakingTimer (Timer.start (Int32.mul minutes 60)).

Definition tick (secondsDelta : Z) : M t unit :=
  if secondsDelta <=? 0 then ret tt
  else
    o <- get ;;
    (if on o then
       modify (fun o =>
         set_elapsedSeconds (Int32.add (elapsedSeconds o) secondsDelta) o) ;;
       modify (fun o =>
         set_temperature
           (TemperatureProfile.currentTemp (profile o) (elapsedSeconds o)) o)
     else ret tt) ;;
    zoom bakingTimer set_bakingTimer (Timer.tick secondsDelta) ;;
    o <- get ;;
    if Timer.isFinished (bakingTimer o) && on o then turnOff else ret tt.

Definition isOn (o : t) : bool := on o.
Definition getTemperature (o : t) : double := temperature o.
Definition isDoorClosed (o : t) : bool := doorClosed o.

(** The mutating interface of the class as a labelled transition system. *)
Inductive call : Type :=
| Preheat (tg : double) (warmupMinutes : Z)
| TurnOff
| CloseDoor
| OpenDoor
| SetTimerMinutes (minutes : Z)
| Tick (secondsDelta : Z).

Definition step (c : call) : M t unit :=
  match c with
  | Preheat tg w => preheat tg w
  | TurnOff => turnOff
  | CloseDoor => closeDoor
  | OpenDoor => openDoor
  | SetTimerMinutes m => setTimerMinutes m
  | Tick d => tick d
  end.

End Oven.

Module Stove.

Record t : Type := mk {
  burners : Z;
  activeBurners : Z;
  gas : bool;
  on : bool
}.

Definition turnOnBurner : M t unit :=
  s <- get ;;
  if activeBurners s <? burners s then
    modify (fun s => mk (burners s) (Int32.add (activeBurners s) 1) (gas s) (on s)) ;;
    modify (fun s => mk (burners s) (activeBurners s) (gas s) true)
  else ret tt.

Definition turnOffBurner : M t unit :=
  s <- get ;;
  if 0 <? activeBurners s then
    modify (fun s => mk (burners s) (Int32.sub (activeBurners s) 1) (gas s) (on s)) ;;
    s <- get ;;
    if activeBurners s =? 0 then
      modify (fun s => mk (burners s) (activeBurners s) (gas s) false)
    else ret tt
  else ret tt.

Definition freeBurners (s : t) : Z := Int32.sub (burners s) (activeBurners s).

End Stove.

(** ** The objects a dish points to *)

Module Store.

(** A pointer is [None] for [nullptr], else the index of its object in the
    store of that class.  Two pointers may hold the same index. *)
Definition ptr : Type := option nat.

Definition is_null (p : ptr) : bool :=
  match p with None => true | Some _ => false end.

Record t : Type := mk {
  ingredients : list Ingredient.t;
  pots : list Pot.t;
  stoves : list Stove.t;
  timers : list Timer.t
}.

Definition set_ingredients (l : list Ingredient.t) (s : t) : t :=
  mk l (pots s) (stoves s) (timers s).
Definition set_pots (l : list Pot.t) (s : t) : t :=
  mk (ingredients s) l (stoves s) (timers s).
Definition set_stoves (l : list Stove.t) (s : t) : t :=
  mk (ingredients s) (pots s) l (timers s).
Definition set_timers (l : list Timer.t) (s : t) : t :=
  mk (ingredients s) (pots s) (stoves s) l.

Fixpoint write {T} (i : nat) (x : T) (l : list T) : list T :=
  match l, i with
  | [], _ => []
  | _ :: l', O => x :: l'
  | y :: l', Datatypes.S i' => y :: write i' x l'
  end.

(** [p->m(...)]: the call of [m] on the pointee of [p]. *)
Definition deref {T A} (cell : t -> list T) (set_cell : list T -> t -> t)
  (p : ptr) (m : M T A) : M t A :=
  fun s =>
    match p with
    | None => (Undefined, s)
    | Some i =>
        match nth_error (cell s) i with
        | None => (Undefined, s)
        | Some obj =>
            let (r, obj') := m obj in (r, set_cell (write i obj' (cell s)) s)
        end
    end.

Definition put_timer (a : nat) (tm : Timer.t) (s : t) : t :=
  set_timers (write a tm (timers s)) s.

Definition on_ingredient {A} := @deref Ingredient.t A ingredients set_ingredients.
Definition on_pot {A} := @deref Pot.t A pots set_pots.
Definition on_stove {A} := @deref Stove.t A stoves set_stoves.
Definition on_timer {A} := @deref Timer.t A timers set_timers.

End Store.

(** ** ChickenSoupDish and Cook *)

Module Cook.

Record t : Type := mk { name : string }.

End Cook.

Module ChickenSoupDish.

Record t : Type := mk {
  name : string;
  chicken : Store.ptr;
  veggies : Store.ptr;
  use_pot : Store.ptr;
  use_stove : Store.ptr;
  use_boilTimer : Store.ptr;
  chef : option Cook.t
}.

End ChickenSoupDish.

(** The wait loop of a timed procedure of [Cook], with the timer pointer and
    the step as parameters:
    [while (!timer->isFinished()) { timer->tick(step); minutesPassed += step / 60; }].
    The loop-carried pair is [minutesPassed] and a count of the passes through
    the body; the count is not in the source. *)
Definition waitLoop (fuel : nat) (timer : Store.ptr) (step : Z)
  : M Store.t (Z * Z) :=
  while_ fuel
    (fun _ =>
       finished <- Store.on_timer timer (reads Timer.isFinished) ;;
       ret (negb finished))
    (fun '(minutesPassed, passes) =>
       Store.on_timer timer (Timer.tick step) ;;
       ret (Int32.add minutesPassed (Int32.div step 60), passes + 1))
    (0, 0).

(** [Cook::cookChickenSoup]; the narration written to [cout] is left out. *)
Definition cookChickenSoup (fuel : nat) (dish : ChickenSoupDish.t)
  : M Store.t unit :=
  let pot := ChickenSoupDish.use_pot dish in
  let stove := ChickenSoupDish.use_stove dish in
  let boilTimer := ChickenSoupDish.use_boilTimer dish in
  if Store.is_null pot then throw ToolNotAvailableException
  else if Store.is_null stove then throw ToolNotAvailableException
  else if Store.is_null boilTimer then throw TimerNotSetException
  else
    fits <- Store.on_pot pot (reads (fun p => Pot.canBoil p (Double.lit 3 (-1)))) ;;
    if negb fits then throw NotEnoughIngredientException
    else
      Store.on_ingredient (ChickenSoupDish.chicken dish)
        (Ingredient.useAmount (Double.of_int 150)) ;;
      Store.on_ingredient (ChickenSoupDish.veggies dish)
        (Ingredient.useAmount (Double.of_int 100)) ;;
      Store.on_stove stove Stove.turnOnBurner ;;
      Store.on_pot pot Pot.startBoil ;;
      let totalSeconds := Int32.mul 30 60 in
      Store.on_timer boilTimer (Timer.start totalSeconds) ;;
      let step := Int32.mul 5 60 in
      waitLoop fuel boilTimer step ;;
      Store.on_stove stove Stove.turnOffBurner ;;
      Store.on_pot pot Pot.stopBoil.

(** [ChickenSoupDish::cook]. *)
Definition cook (fuel : nat) (dish : ChickenSoupDish.t) : M Store.t unit :=
  match ChickenSoupDish.chef dish with
  | None => throw ToolNotAvailableException
  | Some _ => cookChickenSoup fuel dish
  end.

(** ** Repeated calls, and the objects of the scenarios *)

(** [n] successive [useTool()] calls; the run stops at the first throw. *)
Fixpoint uses (n : nat) : M KitchenTool.t unit :=
  match n with
  | O => ret tt
  | Datatypes.S n' => uses n' ;; KitchenTool.useTool
  end.

(** One [tick] per element of [deltas], in order. *)
Fixpoint ticks (deltas : list Z) : M Timer.t unit :=
  match deltas with
  | [] => ret tt
  | d :: ds => Timer.tick d ;; ticks ds
  end.

(** The quotient of [a] by [b] rounded up, for [b > 0]. *)
Definition ceil_div (a b : Z) : Z := (a + b - 1) / b.

(** [Unit gramUnit("g", 1.0, false, 1)] of the test suite. *)
Definition gramUnit : Unit.t := Unit.mk "g" (Double.of_int 1) false 1.

(** [Ingredient(name, Quantity(grams, &gramUnit), 0.0, false)]. *)
Definition makeIngredient (name : string) (grams : double) : Ingredient.t :=
  Ingredient.mk name (Quantity.mk grams (Some gramUnit) false 0) Double.zero false.

Definition sugar : Ingredient.t := makeIngredient "sugar" Double.zero.
Definition flour : Ingredient.t := makeIngredient "flour" (Double.of_int 150).

(** [TemperatureProfile(20.0, 180.0, 10, true)], as in the test suite. *)
Definition warmup : TemperatureProfile.t :=
  TemperatureProfile.mk (Double.of_int 20) (Double.of_int 180) 10 true.

(** A tool constructed clean and available, and what [d] uses make of it. *)
Definition fresh_tool (n : string) (d : Z) : KitchenTool.t :=
  KitchenTool.new n true true d.
Definition worn_tool (n : string) : KitchenTool.t :=
  KitchenTool.mk n true false false 0.

(** [KitchenTool("pan", false, true, 100)]: dirty. *)
Definition dirty_tool : KitchenTool.t := KitchenTool.mk "pan" false true false 100.
Definition dirty_pan : Pan.t := Pan.mk dirty_tool (Double.of_int 24) true false.
Definition worn_pot : Pot.t := Pot.mk (worn_tool "pot") (Double.of_int 2) true false.

(** The default oven after [preheat(180, 10)] and [setTimerMinutes(1)]. *)
Definition baking_oven : Oven.t :=
  snd ((Oven.preheat (Double.of_int 180) 10 ;; Oven.setTimerMinutes 1)
         Oven.default).

(** The kitchen of the chicken-soup tests: 1000 g of chicken and of
    vegetables, one pot of the given volume, a default stove and timer. *)
Definition soup_kitchen (potVolume : double) : Store.t :=
  Store.mk
    [makeIngredient "chicken" (Double.of_int 1000);
     makeIngredient "veg" (Double.of_int 1000)]
    [Pot.new "pot" potVolume true false]
    [Stove.mk 4 0 true false]
    [Timer.default].

Definition soup : ChickenSoupDish.t :=
  ChickenSoupDish.mk "Chicken soup" (Some 0%nat) (Some 1%nat)
    (Some 0%nat) (Some 0%nat) (Some 0%nat) (Some (Cook.mk "chef")).

(** A store that holds one default-constructed timer and nothing else. *)
Definition one_timer : Store.t := Store.mk [] [] [] [Timer.default].

(** A timer that ran its 10 seconds. *)
Definition done_timer : Timer.t := Timer.mk 10 false 10 0.

(** A stock whose mass, [2^1023 * 10], overflows to [+inf]. *)
Definition huge_stock : Ingredient.t :=
  Ingredient.mk "huge"
    (Quantity.mk (Double.lit 1 1023)
       (Some (Unit.mk "x10" (Double.of_int 10) false 2)) false 0)
    Double.zero false.

(** ** The other tools *)

Module Knife.

Record t : Type := mk {
  base : KitchenTool.t;
  sharp : bool;
  size : Z;
  id : Z
}.

Definition new (n : string) (s : bool) (sz i : Z) : t :=
  mk (KitchenTool.new n true true 100) s sz i.

Definition sharpen : M t unit := modify (fun k => mk (base k) true (size k) (id k)).
Definition dull : M t unit := modify (fun k => mk (base k) false (size k) (id k)).

Definition canCut (k : t) : bool := KitchenTool.isAvailable (base k) && sharp k.

End Knife.

Module CuttingBoard.

Record t : Type := mk {
  base : KitchenTool.t;
  wooden : bool;
  wet : bool;
  id : Z
}.

Definition new (n : string) (w we : bool) (i : Z) : t :=
  mk (KitchenTool.new n true true 100) w we i.

Definition dry : M t unit := modify (fun b => mk (base b) (wooden b) false (id b)).
Definition wetBoard : M t unit := modify (fun b => mk (base b) (wooden b) true (id b)).

Definition isSafeForBread (b : t) : bool :=
  wooden b && negb (wet b) && KitchenTool.isAvailable (base b).

End CuttingBoard.

Module Mixer.

Record t : Type := mk {
  base : KitchenTool.t;
  pluggedIn : bool
}.

Definition set_base (b : KitchenTool.t) (m : t) : t := mk b (pluggedIn m).
Definition set_pluggedIn (p : bool) (m : t) : t := mk (base m) p.

Definition new (n : string) (plugged : bool) : t :=
  mk (KitchenTool.new n true true 100) plugged.

Definition plugIn : M t bool := modify (set_pluggedIn true) ;; reads pluggedIn.
Definition unplug : M t bool := modify (set_pluggedIn false) ;; reads pluggedIn.

Definition mix : M t unit :=
  m <- get ;;
  if negb (pluggedIn m) then ret tt
  else if negb (KitchenTool.isAvailable (base m)) then
    throw ToolNotAvailableException
  else zoom base set_base KitchenTool.useTool.

End Mixer.

Module PotatoMasher.

Record t : Type := mk {
  base : KitchenTool.t;
  id : Z
}.

Definition set_base (b : KitchenTool.t) (m : t) : t := mk b (id m).

Definition new (n : string) (i : Z) : t := mk (KitchenTool.new n true true 100) i.

Definition mash : M t unit :=
  ok <- reads (fun m => KitchenTool.isAvailable (base m)) ;;
  if negb ok then throw ToolNotAvailableException
  else zoom base set_base KitchenTool.useTool.

End PotatoMasher.

(** ** Sequences of calls on one object *)

(** The object after the calls [cs], made in order by a caller that catches
    whatever a call throws and goes on. *)
Definition after {S C : Type} (step : C -> M S unit) (cs : list C) (s : S) : S :=
  fold_left (fun s c => snd (step c s)) cs s.

(** The mutating interface of [KitchenTool]. *)
Inductive tool_call : Type := UseTool | CleanTool | BreakTool.

Definition tool_step (c : tool_call) : M KitchenTool.t unit :=
  match c with
  | UseTool => KitchenTool.useTool
  | CleanTool => KitchenTool.cleanTool
  | BreakTool => KitchenTool.breakTool
  end.

(** The mutating interface of [Stove]. *)
Inductive stove_call : Type := TurnOnBurner | TurnOffBurner.

Definition stove_step (c : stove_call) : M Stove.t unit :=
  match c with
  | TurnOnBurner => Stove.turnOnBurner
  | TurnOffBurner => Stove.turnOffBurner
  end.


Definition is_nan (x : double) : bool :=
  match x with S754_nan => true | _ => false end.

(** ** BakedMeatDish *)

(** The objects a [BakedMeatDish] points to. *)
Module Bakery.

Record t : Type := mk {
  ingredients : list Ingredient.t;
  ovens : list Oven.t
}.

Definition set_ingredients (l : list Ingredient.t) (s : t) : t := mk l (ovens s).
Definition set_ovens (l : list Oven.t) (s : t) : t := mk (ingredients s) l.

(** [p->m(...)], as [Store.deref]. *)
Definition deref {T A} (cell : t -> list T) (set_cell : list T -> t -> t)
  (p : Store.ptr) (m : M T A) : M t A :=
  fun s =>
    match p with
    | None => (Undefined, s)
    | Some i =>
        match nth_error (cell s) i with
        | None => (Undefined, s)
        | Some obj =>
            let (r, obj') := m obj in
            (r, set_cell (Store.write i obj' (cell s)) s)
        end
    end.

Definition on_ingredient {A} := @deref Ingredient.t A ingredients set_ingredients.
Definition on_oven {A} := @deref Oven.t A ovens set_ovens.

End Bakery.

Module BakedMeatDish.

Record t : Type := mk {
  name : string;
  meat : Store.ptr;
  oven : Store.ptr;
  chef : option Cook.t
}.

End BakedMeatDish.

(** The baking loop of [Cook], with the oven pointer and the step as
    parameters:
    [while (true) { oven->tick(step); cookedSeconds += step; if (!oven->isOn()) break; }];
    the result is [cookedSeconds]. *)
Fixpoint bakeLoop (fuel : nat) (oven : Store.ptr) (step : Z) (cookedSeconds : Z)
  : M Bakery.t Z :=
  match fuel with
  | O => fun s => (OutOfFuel, s)
  | Datatypes.S fuel' =>
      Bakery.on_oven oven (Oven.tick step) ;;
      let cookedSeconds := Int32.add cookedSeconds step in
      isOn <- Bakery.on_oven oven (reads Oven.isOn) ;;
      if negb isOn then ret cookedSeconds
      else bakeLoop fuel' oven step cookedSeconds
  end.

(** [Cook::cookBakedMeat]; [preheat(180.0)] takes the default warm-up of 10
    minutes. *)
Definition cookBakedMeat (fuel : nat) (dish : BakedMeatDish.t)
  : M Bakery.t unit :=
  let oven := BakedMeatDish.oven dish in
  if Store.is_null oven then throw ToolNotAvailableException
  else
    Bakery.on_ingredient (BakedMeatDish.meat dish)
      (Ingredient.useAmount (Double.of_int 200)) ;;
    Bakery.on_oven oven Oven.closeDoor ;;
    Bakery.on_oven oven (Oven.preheat (Double.of_int 180) 10) ;;
    Bakery.on_oven oven (Oven.setTimerMinutes 30) ;;
    cookedSeconds <- bakeLoop fuel oven 300 0 ;;
    let cookedMinutes := Int32.div cookedSeconds 60 in
    let expectedMinutes := 30 in
    if Int32.add expectedMinutes 5 <? cookedMinutes then
      throw OvercookedDishException
    else if cookedMinutes <? Int32.sub expectedMinutes 5 then
      throw UndercookedDishException
    else ret tt.

(** ** SaladDish and SandwichDish *)

(** The objects a [SaladDish] or a [SandwichDish] points to. *)
Module Pantry.

Record t : Type := mk {
  ingredients : list Ingredient.t;
  knives : list Knife.t;
  boards : list CuttingBoard.t
}.

Definition set_ingredients (l : list Ingredient.t) (s : t) : t :=
  mk l (knives s) (boards s).
Definition set_knives (l : list Knife.t) (s : t) : t :=
  mk (ingredients s) l (boards s).
Definition set_boards (l : list CuttingBoard.t) (s : t) : t :=
  mk (ingredients s) (knives s) l.

(** [p->m(...)], as [Store.deref]. *)
Definition deref {T A} (cell : t -> list T) (set_cell : list T -> t -> t)
  (p : Store.ptr) (m : M T A) : M t A :=
  fun s =>
    match p with
    | None => (Undefined, s)
    | Some i =>
        match nth_error (cell s) i with
        | None => (Undefined, s)
        | Some obj =>
            let (r, obj') := m obj in
            (r, set_cell (Store.write i obj' (cell s)) s)
        end
    end.

Definition on_ingredient {A} := @deref Ingredient.t A ingredients set_ingredients.
Definition on_knife {A} := @deref Knife.t A knives set_knives.
Definition on_board {A} := @deref CuttingBoard.t A boards set_boards.

End Pantry.

Module SaladDish.

Record t : Type := mk {
  name : string;
  veggies : Store.ptr;
  oil : Store.ptr;
  knife : Store.ptr;
  board : Store.ptr;
  chef : option Cook.t
}.

End SaladDish.

Module SandwichDish.

Record t : Type := mk {
  name : string;
  bread : Store.ptr;
  cheese : Store.ptr;
  meat : Store.ptr;
  knife : Store.ptr;
  board : Store.ptr;
  chef : option Cook.t
}.

End SandwichDish.

(** [!p || !p->test()], evaluated left to right. *)
Definition null_or_not {S} (p : Store.ptr) (test : M S bool) : M S bool :=
  if Store.is_null p then ret true
  else (ok <- test ;; ret (negb ok)).

(** [Cook::cookSalad].  An unsafe or missing board only changes what is
    written to [cout]. *)
Definition cookSalad (dish : SaladDish.t) : M Pantry.t unit :=
  let knife := SaladDish.knife dish in
  let board := SaladDish.board dish in
  noKnife <- null_or_not knife (Pantry.on_knife knife (reads Knife.canCut)) ;;
  if noKnife then throw ToolNotAvailableException
  else
    unsafe <- null_or_not board
                (Pantry.on_board board (reads CuttingBoard.isSafeForBread)) ;;
    (if unsafe then ret tt else ret tt) ;;
    Pantry.on_ingredient (SaladDish.veggies dish)
      (Ingredient.useAmount (Double.of_int 120)) ;;
    Pantry.on_ingredient (SaladDish.oil dish)
      (Ingredient.useAmount (Double.of_int 10)).

(** [Cook::cookSandwich]. *)
Definition cookSandwich (dish : SandwichDish.t) : M Pantry.t unit :=
  let knife := SandwichDish.knife dish in
  let board := SandwichDish.board dish in
  noKnife <- null_or_not knife (Pantry.on_knife knife (reads Knife.canCut)) ;;
  if noKnife then throw ToolNotAvailableException
  else if Store.is_null board then throw ToolNotAvailableException
  else
    safe <- Pantry.on_board board (reads CuttingBoard.isSafeForBread) ;;
    if negb safe then throw ToolNotAvailableException
    else
      Pantry.on_ingredient (SandwichDish.bread dish)
        (Ingredient.useAmount (Double.of_int 2)) ;;
      Pantry.on_ingredient (SandwichDish.cheese dish)
        (Ingredient.useAmount (Double.of_int 30)) ;;
      Pantry.on_ingredient (SandwichDish.meat dish)
        (Ingredient.useAmount (Double.of_int 20)).

(** The oven while it bakes: on, [e] seconds into a bake timer of [T]
    seconds, and as many seconds into the warm-up. *)
Definition baking (T i : Z) (door : bool) (prof : TemperatureProfile.t)
  (e : Z) (tmp : double) : Oven.t :=
  Oven.mk tmp true door (Timer.mk T true e i) prof e.

(** The oven once the bake timer has rung: off and at 0.0. *)
Definition baked (T i : Z) (door : bool) (prof : TemperatureProfile.t)
  (es : Z) : Oven.t :=
  Oven.mk Double.zero false door (Timer.mk T false T i) prof es.

(** ** Facts about doubles *)

Section DoubleFacts.

Lemma sub_diag_finite (s : bool) (m : positive) (e : Z) :
  Double.sub (S754_finite s m e) (S754_finite s m e) = S754_zero false.
Proof.
  unfold Double.sub, SFsub.
  rewrite Z.min_id. unfold shl_align. rewrite Z.sub_diag.
  reflexivity.
Qed.

Lemma gtb_irrefl_finite (s : bool) (m : positive) (e : Z) :
  Double.gtb (S754_finite s m e) (S754_finite s m e) = false.
Proof.
  unfold Double.gtb, SFltb, SFcompare.
  rewrite Z.compare_refl, Pos.compare_cont_refl.
  destruct s; reflexivity.
Qed.

(** Rounding keeps the sign it is given. *)
Lemma binary_round_aux_sign (s : bool) (mx ex : Z) (l : location) (r : double) :
  binary_round_aux Double.prec Double.emax s mx ex l = r ->
  Double.gtb r Double.zero = true -> s = false.
Proof.
  unfold binary_round_aux.
  destruct (shr_fexp _ _ mx ex l) as [mrs1 e1].
  destruct (shr_fexp _ _ _ e1 loc_Exact) as [mrs2 e2].
  intros <-.
  destruct (shr_m mrs2); [discriminate | | discriminate].
  destruct (e2 <=? _), s; (discriminate || reflexivity).
Qed.

(** A positive finite double is a finite one of positive sign. *)
Lemma positive_finite_inv (g : double) :
  Double.gtb g Double.zero = true -> Double.is_finite g = true ->
  exists m e, g = S754_finite false m e.
Proof.
  destruct g as [s | s | | s m e]; try discriminate.
  destruct s; [discriminate |]. intros _ _. eauto.
Qed.

(** A product that is positive and finite has finite factors of one sign. *)
Lemma mul_positive_finite_inv (v u : double) :
  Double.gtb (Double.mul v u) Double.zero = true ->
  Double.is_finite (Double.mul v u) = true ->
  exists sv mv ev mu eu,
    v = S754_finite sv mv ev /\ u = S754_finite sv mu eu.
Proof.
  destruct v as [sv | sv | | sv mv ev], u as [su | su | | su mu eu];
    intros Hpos Hfin;
    try (cbv in Hfin; discriminate);
    try (cbv in Hpos; discriminate).
  assert (xorb sv su = false) as Hs
    by (eapply binary_round_aux_sign; [reflexivity | exact Hpos]).
  apply xorb_eq in Hs. subst su.
  exists sv, mv, ev, mu, eu. split; reflexivity.
Qed.

Lemma gtb_zero_any_sign (s : bool) (v : double) :
  Double.gtb v Double.zero = true -> Double.gtb v (S754_zero s) = true.
Proof. destruct v as [? | ? | | ? ? ?]; intros H; exact H. Qed.

End DoubleFacts.

(** ** Ingredient: replenishing and consuming *)

(** C1.  What [Ingredient::addAmount] does on an empty stock: for every
    ingredient whose unit is bound and whose mass [g] compares equal to zero,
    and for every amount [v], the call returns normally and leaves the
    ingredient as it was.  The mass afterwards is still [g]; it has not
    become [v]. *)
Theorem addAmount_on_zero_mass_changes_nothing
  (i : Ingredient.t) (g v : double) :
  Ingredient.mass i = Normal g ->
  Double.eqb g Double.zero = true ->
  Ingredient.addAmount v i = (Normal tt, i)
  /\ Ingredient.mass (snd (Ingredient.addAmount v i)) = Normal g.
Proof.
  intros Hmass Hzero.
  assert (Double.gtb g Double.zero = false) as Hg
    by (revert Hzero; destruct g as [? | [|] | | [|] ? ?]; cbv;
        intros; (reflexivity || discriminate)).
  assert (Ingredient.addAmount v i = (Normal tt, i)) as Hrun.
  { unfold Ingredient.mass in Hmass.
    unfold Ingredient.addAmount, bind, const_call.
    rewrite Hmass, Hg. reflexivity. }
  rewrite Hrun. split; [reflexivity | exact Hmass].
Qed.

Lemma addAmount_on_zero_mass_changes_nothing_witness :
  Ingredient.mass sugar = Normal Double.zero
  /\ Ingredient.addAmount (Double.of_int 100) sugar = (Normal tt, sugar)
  /\ Ingredient.mass (snd (Ingredient.addAmount (Double.of_int 100) sugar))
     = Normal Double.zero
  /\ Double.eqb Double.zero (Double.of_int 100) = false.
Proof.
  split; [reflexivity |].
  destruct (addAmount_on_zero_mass_changes_nothing
              sugar Double.zero (Double.of_int 100) eq_refl eq_refl)
    as [Hrun Hmass].
  split; [exact Hrun |]. split; [exact Hmass | reflexivity].
Defined.

Example useAmount_flour_all :
  Ingredient.useAmount (Double.of_int 150) flour
  = (Normal tt, makeIngredient "flour" Double.zero).
Proof. reflexivity. Qed.

Example useAmount_flour_again :
  Ingredient.useAmount (Double.of_int 150) (makeIngredient "flour" Double.zero)
  = (Throw NotEnoughIngredientException, makeIngredient "flour" Double.zero).
Proof. reflexivity. Qed.

(** C3, amended.  For every ingredient with a bound unit and a positive finite mass
    [g]: [useAmount(g)] returns normally and the mass afterwards is [+0.0];
    on the ingredient it leaves, [useAmount(v)] for any [v > 0] throws
    [NotEnoughIngredientException] and changes nothing, so the mass is
    still [+0.0]. *)
Theorem useAmount_whole_mass_then_insufficient (i : Ingredient.t) (g : double) :
  Ingredient.mass i = Normal g ->
  Double.gtb g Double.zero = true ->
  Double.is_finite g = true ->
  exists i',
    Ingredient.useAmount g i = (Normal tt, i')
    /\ Ingredient.mass i' = Normal Double.zero
    /\ forall v, Double.gtb v Double.zero = true ->
         Ingredient.useAmount v i' = (Throw NotEnoughIngredientException, i').
Proof.
  destruct i as [n [v [u |] ap qid] cal per]; [| discriminate].
  unfold Ingredient.mass, Quantity.toGrams, Unit.toGrams. cbn [Ingredient.quantity
    Quantity.unit Quantity.value].
  intros [= <-] Hpos Hfin.
  destruct (mul_positive_finite_inv _ _ Hpos Hfin)
    as (sv & mv & ev & mu & eu & Hv & Hu).
  destruct (positive_finite_inv _ Hpos Hfin) as (m & e & Hg).
  eexists. split; [| split].
  - unfold Ingredient.useAmount, bind, const_call, Quantity.toGrams, Unit.toGrams.
    cbn [Ingredient.quantity Quantity.unit Quantity.value].
    rewrite Hpos, Hg, gtb_irrefl_finite, sub_diag_finite.
    reflexivity.
  - cbn. unfold Quantity.toGrams, Unit.toGrams. cbn. rewrite Hv, Hu.
    cbn. rewrite xorb_false_r, xorb_nilpotent. reflexivity.
  - intros w Hw.
    unfold Ingredient.useAmount, bind, const_call, Quantity.toGrams, Unit.toGrams.
    cbn. rewrite Hv, Hu. cbn. rewrite xorb_false_r, xorb_nilpotent.
    unfold Double.zero in Hw. rewrite Hw. reflexivity.
Qed.

Lemma useAmount_whole_mass_then_insufficient_witness :
  exists i',
    Ingredient.useAmount (Double.of_int 150) flour = (Normal tt, i')
    /\ Ingredient.mass i' = Normal Double.zero
    /\ forall v, Double.gtb v Double.zero = true ->
         Ingredient.useAmount v i' = (Throw NotEnoughIngredientException, i').
Proof.
  apply (useAmount_whole_mass_then_insufficient flour (Double.of_int 150));
    reflexivity.
Defined.

(** C3, as stated, fails on a stock whose mass overflows to [+inf]: the
    mass is positive, [useAmount] of that mass passes both tests and returns
    normally, and the mass afterwards is NaN, not zero. *)
Lemma useAmount_whole_infinite_mass_gives_nan :
  Ingredient.mass huge_stock = Normal (S754_infinity false)
  /\ Double.gtb (S754_infinity false) Double.zero = true
  /\ fst (Ingredient.useAmount (S754_infinity false) huge_stock) = Normal tt
  /\ Ingredient.mass (snd (Ingredient.useAmount (S754_infinity false) huge_stock))
     = Normal S754_nan
  /\ Normal S754_nan <> Normal Double.zero.
Proof. repeat split; (reflexivity || discriminate). Qed.

(** ** TemperatureProfile *)

Example currentTemp_warmup_mid :
  TemperatureProfile.currentTemp warmup 5 = Double.of_int 100.
Proof. reflexivity. Qed.

(** C2, as stated, fails: on the gradual profile 20 -> 180 over 10 s, five
    seconds before the start the function returns -60, not the start
    temperature 20. *)
Lemma currentTemp_negative_elapsed_not_clamped :
  TemperatureProfile.currentTemp warmup (-5) = Double.of_int (-60)
  /\ TemperatureProfile.currentTemp warmup (-5)
     <> TemperatureProfile.startTemp warmup.
Proof. split; [reflexivity | discriminate]. Qed.

(** C2, amended.  [currentTemp] is a total function of the profile and the
    elapsed time.  For negative [elapsed] nothing is clamped: a profile that
    is gradual and has a positive duration yields the linear formula
    [startTemp + (targetTemp - startTemp) * (elapsed / duration)] evaluated
    at the negative ratio, and any other profile yields [targetTemp]. *)
Theorem currentTemp_negative_elapsed (p : TemperatureProfile.t) (elapsed : Z) :
  elapsed < 0 ->
  TemperatureProfile.currentTemp p elapsed =
    if TemperatureProfile.gradual p && (0 <? TemperatureProfile.duration p) then
      Double.add (TemperatureProfile.startTemp p)
        (Double.mul
           (Double.sub (TemperatureProfile.targetTemp p)
                       (TemperatureProfile.startTemp p))
           (Double.div (Double.of_int elapsed)
                       (Double.of_int (TemperatureProfile.duration p))))
    else TemperatureProfile.targetTemp p.
Proof.
  intros Hneg. unfold TemperatureProfile.currentTemp.
  destruct (TemperatureProfile.gradual p); cbn [negb orb andb]; [| reflexivity].
  destruct (Z.ltb_spec 0 (TemperatureProfile.duration p)) as [Hd | Hd].
  - replace (TemperatureProfile.duration p <=? elapsed) with false
      by (symmetry; apply Z.leb_gt; lia).
    replace (TemperatureProfile.duration p <=? 0) with false
      by (symmetry; apply Z.leb_gt; lia).
    reflexivity.
  - replace (TemperatureProfile.duration p <=? 0) with true
      by (symmetry; apply Z.leb_le; lia).
    rewrite orb_true_r. reflexivity.
Qed.

Lemma currentTemp_negative_elapsed_witness :
  TemperatureProfile.currentTemp warmup (-5) = Double.of_int (-60).
Proof.
  rewrite (currentTemp_negative_elapsed warmup (-5)) by lia.
  reflexivity.
Defined.

(** ** Machine integers in range *)

Lemma wrap_in_range (z : Z) : Int32.in_range z -> Int32.wrap z = z.
Proof.
  unfold Int32.in_range, Int32.INT_MIN, Int32.INT_MAX, Int32.wrap.
  intros H. rewrite Z.mod_small; lia.
Qed.

(** ** KitchenTool: wearing a tool out *)

Ltac run_method :=
  unfold bind, get, modify, throw, ret, reads, zoom; cbn [fst snd].

Lemma isAvailable_false_guard (k : KitchenTool.t) :
  KitchenTool.isAvailable k = false ->
  negb (KitchenTool.available k) || negb (KitchenTool.clean k)
  || (KitchenTool.durability k <=? 0) = true.
Proof.
  unfold KitchenTool.isAvailable.
  destruct (KitchenTool.available k), (KitchenTool.clean k); cbn; try reflexivity.
  intros H. apply Z.ltb_ge in H. apply Z.leb_le. exact H.
Qed.

Lemma useTool_unusable (k : KitchenTool.t) :
  KitchenTool.isAvailable k = false ->
  KitchenTool.useTool k = (Throw ToolNotAvailableException, k).
Proof.
  intros H. apply isAvailable_false_guard in H.
  unfold KitchenTool.useTool. run_method. rewrite H. reflexivity.
Qed.

(** One use of a clean, available tool with [d > 0] uses left. *)
Lemma useTool_usable (n : string) (d : Z) :
  0 < d <= Int32.INT_MAX ->
  KitchenTool.useTool (KitchenTool.mk n true true false d)
  = (Normal tt, KitchenTool.mk n true (1 <? d) false (d - 1)).
Proof.
  intros Hd. unfold KitchenTool.useTool. run_method.
  cbn [KitchenTool.available KitchenTool.clean KitchenTool.durability negb orb].
  replace (d <=? 0) with false by (symmetry; apply Z.leb_gt; lia).
  unfold KitchenTool.set_busy, KitchenTool.set_durability,
    KitchenTool.set_available.
  cbn [KitchenTool.available KitchenTool.clean KitchenTool.durability
       KitchenTool.name KitchenTool.busy].
  unfold Int32.sub. rewrite wrap_in_range
    by (unfold Int32.in_range, Int32.INT_MIN, Int32.INT_MAX in *; lia).
  destruct (Z.leb_spec (d - 1) 0) as [Hle | Hgt].
  - replace (d - 1) with 0 by lia.
    replace (1 <? d) with false by (symmetry; apply Z.ltb_ge; lia).
    reflexivity.
  - replace (1 <? d) with true by (symmetry; apply Z.ltb_lt; lia).
    reflexivity.
Qed.

Lemma uses_fresh (n : string) (d : Z) (j : nat) :
  0 < d <= Int32.INT_MAX -> Z.of_nat j <= d ->
  uses j (KitchenTool.new n true true d)
  = (Normal tt, KitchenTool.mk n true (Z.of_nat j <? d) false (d - Z.of_nat j)).
Proof.
  intros Hd. induction j as [| j IH]; intros Hj.
  - cbn [uses Z.of_nat]. unfold ret, KitchenTool.new.
    replace (0 <? d) with true by (symmetry; apply Z.ltb_lt; lia).
    rewrite Z.sub_0_r. reflexivity.
  - cbn [uses]. unfold bind at 1. rewrite IH by lia.
    replace (Z.of_nat j <? d) with true by (symmetry; apply Z.ltb_lt; lia).
    rewrite useTool_usable by lia.
    f_equal. f_equal; [| lia].
    destruct (Z.ltb_spec 1 (d - Z.of_nat j)), (Z.ltb_spec (Z.of_nat (S j)) d);
      (reflexivity || lia).
Qed.

(** Past the last use every further call is refused and nothing moves. *)
Lemma uses_worn_out (n : string) (d : Z) (j : nat) :
  0 < d <= Int32.INT_MAX -> d < Z.of_nat j ->
  uses j (KitchenTool.new n true true d)
  = (Throw ToolNotAvailableException, KitchenTool.mk n true false false 0).
Proof.
  intros Hd. induction j as [| j IH]; intros Hj; [lia |].
  cbn [uses]. unfold bind at 1.
  destruct (Z.eq_dec (Z.of_nat j) d) as [Heq | Hne].
  - rewrite uses_fresh by lia. rewrite Heq, Z.ltb_irrefl, Z.sub_diag.
    reflexivity.
  - rewrite IH by lia. reflexivity.
Qed.

(** C4.  A tool constructed clean and available with durability [d > 0] and
    only ever used: before each of the first [d] calls it is usable, with
    durability [d] minus the calls made; the [d] calls return normally and
    leave durability 0 with [available] cleared; call [d+1] throws
    [ToolNotAvailableException] and changes nothing; and after any number of
    calls the durability is not negative. *)
Theorem useTool_succeeds_exactly_durability_times (n : string) (d : Z) :
  0 < d <= Int32.INT_MAX ->
  (forall j : nat, Z.of_nat j < d ->
     exists k, uses j (fresh_tool n d) = (Normal tt, k)
               /\ KitchenTool.isAvailable k = true
               /\ KitchenTool.durability k = d - Z.of_nat j)
  /\ uses (Z.to_nat d) (fresh_tool n d) = (Normal tt, worn_tool n)
  /\ KitchenTool.isAvailable (worn_tool n) = false
  /\ KitchenTool.useTool (worn_tool n)
     = (Throw ToolNotAvailableException, worn_tool n)
  /\ uses (S (Z.to_nat d)) (fresh_tool n d)
     = (Throw ToolNotAvailableException, worn_tool n)
  /\ (forall j : nat, 0 <= KitchenTool.durability (snd (uses j (fresh_tool n d)))).
Proof.
  intros Hd. unfold fresh_tool, worn_tool.
  refine (conj _ (conj _ (conj _ (conj _ (conj _ _))))).
  - intros j Hj. eexists. split; [apply uses_fresh; lia |].
    replace (Z.of_nat j <? d) with true by (symmetry; apply Z.ltb_lt; lia).
    split; [| reflexivity].
    unfold KitchenTool.isAvailable.
    cbn [KitchenTool.available KitchenTool.clean KitchenTool.durability andb].
    apply Z.ltb_lt. lia.
  - rewrite uses_fresh by lia.
    rewrite Z2Nat.id by lia. rewrite Z.ltb_irrefl, Z.sub_diag. reflexivity.
  - reflexivity.
  - apply useTool_unusable. reflexivity.
  - apply uses_worn_out; lia.
  - intros j. destruct (Z_le_gt_dec (Z.of_nat j) d) as [Hle | Hgt].
    + rewrite uses_fresh by lia. cbn [snd KitchenTool.durability]. lia.
    + rewrite uses_worn_out by lia. cbn [snd KitchenTool.durability]. lia.
Qed.

Lemma useTool_succeeds_exactly_durability_times_witness :
  0 < 2 <= Int32.INT_MAX
  /\ uses 2 (fresh_tool "tool" 2) = (Normal tt, worn_tool "tool")
  /\ uses 3 (fresh_tool "tool" 2)
     = (Throw ToolNotAvailableException, worn_tool "tool").
Proof.
  assert (0 < 2 <= Int32.INT_MAX) as H by (unfold Int32.INT_MAX; lia).
  split; [exact H |].
  destruct (useTool_succeeds_exactly_durability_times "tool" 2 H)
    as (_ & T2 & _ & _ & T3 & _).
  split; [exact T2 | exact T3].
Defined.

(** ** Pan and Pot: a refused call has no effect *)

(** C9.  When the tool is not usable (dirty, unavailable or durability not
    above 0), [KitchenTool::useTool], [Pan::heatUp] and [Pot::startBoil]
    each throw [ToolNotAvailableException] and leave the whole object, with
    [onStove], [diameter] or [volume] and [durability], as it was. *)
Theorem unusable_tool_call_has_no_effect :
  (forall k : KitchenTool.t,
     KitchenTool.isAvailable k = false ->
     KitchenTool.useTool k = (Throw ToolNotAvailableException, k))
  /\ (forall p : Pan.t,
       KitchenTool.isAvailable (Pan.base p) = false ->
       Pan.heatUp p = (Throw ToolNotAvailableException, p))
  /\ (forall p : Pot.t,
       KitchenTool.isAvailable (Pot.base p) = false ->
       Pot.startBoil p = (Throw ToolNotAvailableException, p)).
Proof.
  refine (conj useTool_unusable (conj _ _)).
  - intros p H. unfold Pan.heatUp. run_method. rewrite H. reflexivity.
  - intros p H. unfold Pot.startBoil. run_method. rewrite H. reflexivity.
Qed.

Lemma unusable_tool_call_has_no_effect_witness :
  KitchenTool.useTool dirty_tool = (Throw ToolNotAvailableException, dirty_tool)
  /\ Pan.heatUp dirty_pan = (Throw ToolNotAvailableException, dirty_pan)
  /\ Pot.startBoil worn_pot = (Throw ToolNotAvailableException, worn_pot).
Proof.
  destruct unusable_tool_call_has_no_effect as (Hk & Hpan & Hpot).
  split; [| split].
  - apply Hk. reflexivity.
  - apply Hpan. reflexivity.
  - apply Hpot. reflexivity.
Defined.

(** ** Timer *)

Lemma tick_not_running (tm : Timer.t) (delta : Z) :
  Timer.running tm = false -> Timer.tick delta tm = (Normal tt, tm).
Proof.
  intros H. unfold Timer.tick.
  destruct (delta <=? 0); [reflexivity |].
  run_method. rewrite H. reflexivity.
Qed.

Lemma ticks_not_running (tm : Timer.t) (deltas : list Z) :
  Timer.running tm = false -> ticks deltas tm = (Normal tt, tm).
Proof.
  intros H. induction deltas as [| d ds IH]; [reflexivity |].
  cbn [ticks]. unfold bind. rewrite tick_not_running by exact H. exact IH.
Qed.

Lemma isFinished_not_running (tm : Timer.t) :
  Timer.isFinished tm = true -> Timer.running tm = false.
Proof.
  unfold Timer.isFinished. destruct (Timer.running tm); [discriminate | reflexivity].
Qed.

(** C5.  On a timer that is not running (idle or finished), one [tick] with
    any [delta], and any sequence of [tick]s, returns normally and leaves
    the timer as it was.  So a finished timer stays finished after any
    further [tick]s and its [elapsed] does not move. *)
Theorem tick_when_not_running_is_noop (tm : Timer.t) :
  (Timer.running tm = false ->
     (forall delta, Timer.tick delta tm = (Normal tt, tm))
     /\ (forall deltas, ticks deltas tm = (Normal tt, tm)))
  /\ (Timer.isFinished tm = true ->
      forall deltas,
        fst (ticks deltas tm) = Normal tt
        /\ Timer.isFinished (snd (ticks deltas tm)) = true
        /\ Timer.elapsed (snd (ticks deltas tm)) = Timer.elapsed tm
        /\ Timer.running (snd (ticks deltas tm)) = false).
Proof.
  split.
  - intros H. split; intros; [apply tick_not_running | apply ticks_not_running];
      exact H.
  - intros H deltas.
    rewrite ticks_not_running by (apply isFinished_not_running; exact H).
    cbn [fst snd]. repeat split; try exact H.
    apply isFinished_not_running; exact H.
Qed.

Lemma tick_when_not_running_is_noop_witness :
  Timer.tick 10 done_timer = (Normal tt, done_timer)
  /\ Timer.isFinished (snd (ticks [10; 3; -1; 2147483647] done_timer)) = true
  /\ Timer.elapsed (snd (ticks [10; 3; -1; 2147483647] done_timer)) = 10.
Proof.
  destruct (tick_when_not_running_is_noop done_timer) as [Hidle Hfin].
  split.
  - apply Hidle. reflexivity.
  - destruct (Hfin eq_refl [10; 3; -1; 2147483647]) as (_ & H1 & H2 & _).
    split; [exact H1 | exact H2].
Defined.

(** *** The wait loop *)

Lemma write_same {T} (l : list T) (i : nat) (x : T) :
  nth_error l i = Some x -> Store.write i x l = l.
Proof.
  revert i. induction l as [| y l IH]; intros [| i] H; cbn in *;
    try discriminate.
  - injection H as ->. reflexivity.
  - rewrite IH by exact H. reflexivity.
Qed.

Lemma nth_error_write {T} (l : list T) (i : nat) (x y : T) :
  nth_error l i = Some x -> nth_error (Store.write i y l) i = Some y.
Proof.
  revert i. induction l as [| z l IH]; intros [| i] H; cbn in *;
    try discriminate; [reflexivity | eapply IH; exact H].
Qed.

Lemma write_write {T} (l : list T) (i : nat) (x y : T) :
  Store.write i y (Store.write i x l) = Store.write i y l.
Proof.
  revert i. induction l as [| z l IH]; intros [| i]; cbn; try reflexivity.
  rewrite IH. reflexivity.
Qed.

(** A call through a valid timer pointer runs on the pointee and stores what
    the call leaves. *)
Lemma on_timer_run {A} (m : M Timer.t A) (st : Store.t) (a : nat)
  (tm tm' : Timer.t) (r : completion A) :
  nth_error (Store.timers st) a = Some tm ->
  m tm = (r, tm') ->
  Store.on_timer (Some a) m st = (r, Store.put_timer a tm' st).
Proof.
  intros Hat Hm. unfold Store.on_timer, Store.deref. rewrite Hat, Hm.
  reflexivity.
Qed.

Lemma put_timer_same (st : Store.t) (a : nat) (tm : Timer.t) :
  nth_error (Store.timers st) a = Some tm -> Store.put_timer a tm st = st.
Proof.
  intros H. unfold Store.put_timer. rewrite write_same by exact H.
  destruct st; reflexivity.
Qed.

Lemma put_timer_put_timer (st : Store.t) (a : nat) (tm1 tm2 : Timer.t) :
  Store.put_timer a tm2 (Store.put_timer a tm1 st) = Store.put_timer a tm2 st.
Proof.
  unfold Store.put_timer, Store.set_timers. cbn [Store.timers Store.ingredients
    Store.pots Store.stoves]. rewrite write_write. reflexivity.
Qed.

Lemma timers_put_timer (st : Store.t) (a : nat) (tm tm' : Timer.t) :
  nth_error (Store.timers st) a = Some tm ->
  nth_error (Store.timers (Store.put_timer a tm' st)) a = Some tm'.
Proof. intros H. cbn. eapply nth_error_write. exact H. Qed.

(** [ceil_div a b] is the least [q] with [a <= q * b]. *)
Lemma ceil_div_is_ceiling (a b : Z) :
  0 < b -> (ceil_div a b - 1) * b < a <= ceil_div a b * b.
Proof.
  intros Hb. unfold ceil_div.
  pose proof (Z.div_mod (a + b - 1) b ltac:(lia)) as Hdm.
  pose proof (Z.mod_pos_bound (a + b - 1) b Hb) as Hm.
  nia.
Qed.

Section WaitLoop.

Variables (T s i : Z) (a : nat).
Hypothesis T_pos : 0 < T.
Hypothesis s_pos : 0 < s.
(** [elapsed += delta] stays inside [int]. *)
Hypothesis no_overflow : T + s - 1 <= Int32.INT_MAX.

Lemma ceil_div_last (x : Z) : 0 < x <= s -> ceil_div x s = 1.
Proof.
  intros Hx. unfold ceil_div. symmetry.
  apply (Z.div_unique_pos _ _ 1 (x - 1)); lia.
Qed.

Lemma ceil_div_step (x : Z) : ceil_div (x - s) s = ceil_div x s - 1.
Proof.
  unfold ceil_div.
  replace (x - s + s - 1) with (x + s - 1 + (-1) * s) by lia.
  rewrite Z.div_add by lia. lia.
Qed.

Lemma ceil_div_pos (x : Z) : 0 < x -> 0 < ceil_div x s.
Proof.
  intros Hx. unfold ceil_div. apply Z.div_str_pos. lia.
Qed.

(** A tick of the running timer below its target. *)
Lemma tick_running (e : Z) :
  0 <= e < T ->
  Timer.tick s (Timer.mk T true e i)
  = (Normal tt,
     if T <=? e + s then Timer.mk T false T i else Timer.mk T true (e + s) i).
Proof.
  intros He. unfold Timer.tick.
  replace (s <=? 0) with false by (symmetry; apply Z.leb_gt; lia).
  run_method. cbn [Timer.running Timer.seconds Timer.elapsed Timer.id negb].
  unfold Int32.add. rewrite wrap_in_range
    by (unfold Int32.in_range, Int32.INT_MIN, Int32.INT_MAX in *; lia).
  destruct (T <=? e + s); reflexivity.
Qed.

(** The loop entered with the timer running at [e] makes
    [ceil_div (T - e) s] more passes and stops on the finished timer. *)
Lemma waitLoop_from (fuel : nat) :
  forall (st : Store.t) (e minutesPassed passes : Z),
    nth_error (Store.timers st) a = Some (Timer.mk T true e i) ->
    0 <= e < T ->
    (Z.to_nat (ceil_div (T - e) s) < fuel)%nat ->
    exists minutesPassed',
      while_ fuel
        (fun _ =>
           finished <- Store.on_timer (Some a) (reads Timer.isFinished) ;;
           ret (negb finished))
        (fun '(minutesPassed, passes) =>
           Store.on_timer (Some a) (Timer.tick s) ;;
           ret (Int32.add minutesPassed (Int32.div s 60), passes + 1))
        (minutesPassed, passes) st
      = (Normal (minutesPassed', passes + ceil_div (T - e) s),
         Store.put_timer a (Timer.mk T false T i) st).
Proof.
  induction fuel as [| fuel IH]; intros st e mp n Hat He Hfuel; [lia |].
  cbn [while_]. unfold bind at 1. unfold bind at 1.
  rewrite (on_timer_run (reads Timer.isFinished) st a _ _ _ Hat eq_refl).
  rewrite (put_timer_same _ _ _ Hat).
  unfold ret at 1. cbn [Timer.isFinished Timer.running negb andb].
  unfold bind at 1. unfold bind at 1.
  rewrite (on_timer_run _ st a _ _ _ Hat (tick_running e He)).
  unfold ret at 1.
  destruct (Z.leb_spec T (e + s)) as [Hdone | Hmore].
  - rewrite ceil_div_last in * by lia.
    destruct fuel as [| fuel]; [lia |].
    eexists. cbn [while_]. unfold bind at 1. unfold bind at 1.
    rewrite (on_timer_run (reads Timer.isFinished) _ a _ _ _
               (timers_put_timer _ _ _ _ Hat) eq_refl).
    rewrite put_timer_put_timer.
    unfold ret at 1.
    unfold Timer.isFinished. cbn [Timer.running Timer.seconds Timer.elapsed negb andb].
    rewrite Z.leb_refl.
    replace (0 <? T) with true by (symmetry; apply Z.ltb_lt; lia).
    reflexivity.
  - pose proof (ceil_div_step (T - e)) as Hstep.
    pose proof (ceil_div_pos (T - e - s) ltac:(lia)) as Hpos.
    destruct (IH (Store.put_timer a (Timer.mk T true (e + s) i) st)
                (e + s) (Int32.add mp (Int32.div s 60)) (n + 1))
      as [mp' Hrun].
    + eapply timers_put_timer. exact Hat.
    + lia.
    + replace (T - (e + s)) with (T - e - s) by lia. lia.
    + exists mp'. rewrite Hrun. rewrite put_timer_put_timer.
      replace (T - (e + s)) with (T - e - s) by lia.
      rewrite Hstep. f_equal. f_equal. f_equal. lia.
Qed.

End WaitLoop.

(** A tick of the running timer, given only that this one addition stays
    inside [int]. *)
Lemma tick_running_at (T s i e : Z) :
  0 < s -> 0 <= e < T -> e + s <= Int32.INT_MAX ->
  Timer.tick s (Timer.mk T true e i)
  = (Normal tt,
     if T <=? e + s then Timer.mk T false T i else Timer.mk T true (e + s) i).
Proof.
  intros Hs He Hmax. unfold Timer.tick.
  replace (s <=? 0) with false by (symmetry; apply Z.leb_gt; lia).
  run_method. cbn [Timer.running Timer.seconds Timer.elapsed Timer.id negb].
  unfold Int32.add. rewrite wrap_in_range
    by (unfold Int32.in_range, Int32.INT_MIN, Int32.INT_MAX in *; lia).
  destruct (T <=? e + s); reflexivity.
Qed.

(** The loop entered with the timer running at [e], when the last value
    [elapsed] takes before the clamp, [e + ceil_div (T - e) s * s], is
    inside [int]. *)
Lemma waitLoop_exact (T s i : Z) (a : nat) (fuel : nat) :
  0 < s ->
  forall (st : Store.t) (e minutesPassed passes : Z),
    nth_error (Store.timers st) a = Some (Timer.mk T true e i) ->
    0 <= e < T ->
    e + ceil_div (T - e) s * s <= Int32.INT_MAX ->
    (Z.to_nat (ceil_div (T - e) s) < fuel)%nat ->
    exists minutesPassed',
      while_ fuel
        (fun _ =>
           finished <- Store.on_timer (Some a) (reads Timer.isFinished) ;;
           ret (negb finished))
        (fun '(minutesPassed, passes) =>
           Store.on_timer (Some a) (Timer.tick s) ;;
           ret (Int32.add minutesPassed (Int32.div s 60), passes + 1))
        (minutesPassed, passes) st
      = (Normal (minutesPassed', passes + ceil_div (T - e) s),
         Store.put_timer a (Timer.mk T false T i) st).
Proof.
  intros Hs.
  induction fuel as [| fuel IH]; intros st e mp n Hat He Hmax Hfuel; [lia |].
  pose proof (ceil_div_pos s Hs (T - e) ltac:(lia)) as Hceil.
  assert (e + s <= Int32.INT_MAX) as Hone by nia.
  cbn [while_]. unfold bind at 1. unfold bind at 1.
  rewrite (on_timer_run (reads Timer.isFinished) st a _ _ _ Hat eq_refl).
  rewrite (put_timer_same _ _ _ Hat).
  unfold ret at 1. cbn [Timer.isFinished Timer.running negb andb].
  unfold bind at 1. unfold bind at 1.
  rewrite (on_timer_run _ st a _ _ _ Hat (tick_running_at T s i e Hs He Hone)).
  unfold ret at 1.
  destruct (Z.leb_spec T (e + s)) as [Hdone | Hmore].
  - rewrite ceil_div_last in * by lia.
    destruct fuel as [| fuel]; [lia |].
    eexists. cbn [while_]. unfold bind at 1. unfold bind at 1.
    rewrite (on_timer_run (reads Timer.isFinished) _ a _ _ _
               (timers_put_timer _ _ _ _ Hat) eq_refl).
    rewrite put_timer_put_timer.
    unfold ret at 1.
    unfold Timer.isFinished. cbn [Timer.running Timer.seconds Timer.elapsed negb andb].
    rewrite Z.leb_refl.
    replace (0 <? T) with true by (symmetry; apply Z.ltb_lt; lia).
    reflexivity.
  - pose proof (ceil_div_step s Hs (T - e)) as Hstep.
    replace (T - e - s) with (T - (e + s)) in Hstep by lia.
    destruct (IH (Store.put_timer a (Timer.mk T true (e + s) i) st)
                (e + s) (Int32.add mp (Int32.div s 60)) (n + 1))
      as [mp' Hrun].
    + eapply timers_put_timer. exact Hat.
    + lia.
    + rewrite Hstep. lia.
    + rewrite Hstep. lia.
    + exists mp'. rewrite Hrun. rewrite put_timer_put_timer.
      rewrite Hstep. f_equal. f_equal. f_equal. lia.
Qed.

(** C7, amended.  For every target [T > 0] and step [s > 0] with
    [ceil(T/s) * s <= INT_MAX], and a pointer to a timer of the store:
    [timer->start(T)] followed by the loop
    [while (!timer->isFinished()) timer->tick(s)] ends.  With any fuel above
    [ceil(T/s)] the run returns normally, the body has been passed exactly
    [ceil(T/s)] times, and the timer is left stopped with
    [elapsed = seconds = T]; nothing else in the store has moved.  The bound
    says that [elapsed], which climbs in steps of [s] up to [ceil(T/s) * s]
    before it is clamped, stays inside [int]. *)
Theorem wait_loop_makes_ceil_passes
  (st : Store.t) (a : nat) (tm : Timer.t) (T s : Z) (fuel : nat) :
  nth_error (Store.timers st) a = Some tm ->
  0 < T -> 0 < s -> ceil_div T s * s <= Int32.INT_MAX ->
  (Z.to_nat (ceil_div T s) < fuel)%nat ->
  exists minutesPassed,
    (Store.on_timer (Some a) (Timer.start T) ;; waitLoop fuel (Some a) s) st
    = (Normal (minutesPassed, ceil_div T s),
       Store.put_timer a (Timer.mk T false T (Timer.id tm)) st).
Proof.
  intros Hat HT Hs Hov Hfuel.
  assert (Timer.start T tm = (Normal tt, Timer.mk T true 0 (Timer.id tm)))
    as Hstart.
  { unfold Timer.start.
    replace (T <=? 0) with false by (symmetry; apply Z.leb_gt; lia).
    reflexivity. }
  unfold bind at 1. rewrite (on_timer_run _ st a _ _ _ Hat Hstart).
  unfold waitLoop.
  destruct (waitLoop_exact T s (Timer.id tm) a fuel Hs
              (Store.put_timer a (Timer.mk T true 0 (Timer.id tm)) st) 0 0 0)
    as [mp Hrun].
  - eapply timers_put_timer. exact Hat.
  - lia.
  - rewrite Z.sub_0_r, Z.add_0_l. exact Hov.
  - rewrite Z.sub_0_r. exact Hfuel.
  - exists mp. rewrite Hrun, put_timer_put_timer.
    rewrite Z.sub_0_r, Z.add_0_l. reflexivity.
Qed.

Lemma wait_loop_makes_ceil_passes_witness :
  (Store.on_timer (Some 0%nat) (Timer.start 1800) ;;
   waitLoop 7 (Some 0%nat) 300) one_timer
  = (Normal (30, 6),
     Store.put_timer 0 (Timer.mk 1800 false 1800 0) one_timer)
  /\ (exists minutesPassed,
        (Store.on_timer (Some 0%nat) (Timer.start 1000) ;;
         waitLoop 5 (Some 0%nat) 300) one_timer
        = (Normal (minutesPassed, 4),
           Store.put_timer 0 (Timer.mk 1000 false 1000 0) one_timer))
  /\ (exists minutesPassed,
        (Store.on_timer (Some 0%nat) (Timer.start 1800) ;;
         waitLoop 2 (Some 0%nat) 2147483647) one_timer
        = (Normal (minutesPassed, 1),
           Store.put_timer 0 (Timer.mk 1800 false 1800 0) one_timer))
  /\ (exists minutesPassed,
        (Store.on_timer (Some 0%nat) (Timer.start 2147483646) ;;
         waitLoop 3 (Some 0%nat) 1073741823) one_timer
        = (Normal (minutesPassed, 2),
           Store.put_timer 0 (Timer.mk 2147483646 false 2147483646 0)
             one_timer)).
Proof.
  split; [reflexivity |]. split; [| split].
  - apply (wait_loop_makes_ceil_passes one_timer 0 Timer.default 1000 300 5);
      unfold Int32.INT_MAX; cbn; (reflexivity || lia).
  - apply (wait_loop_makes_ceil_passes one_timer 0 Timer.default 1800
             2147483647 2);
      unfold Int32.INT_MAX; cbn; (reflexivity || lia).
  - apply (wait_loop_makes_ceil_passes one_timer 0 Timer.default 2147483646
             1073741823 3);
      unfold Int32.INT_MAX; cbn; (reflexivity || lia).
Defined.

(** C7, as stated, fails when [elapsed += delta] leaves [int]: with
    [T = INT_MAX] and [s = INT_MAX - 1], where [ceil(T/s) = 2], the timer is
    still running after two ticks, with [elapsed] wrapped to -4, and the
    loop has not ended after 999 passes. *)
Lemma wait_loop_overflow_keeps_running :
  ceil_div 2147483647 2147483646 = 2
  /\ (Timer.start 2147483647 ;; ticks [2147483646; 2147483646]) Timer.default
     = (Normal tt, Timer.mk 2147483647 true (-4) 0)
  /\ fst ((Store.on_timer (Some 0%nat) (Timer.start 2147483647) ;;
           waitLoop 1000 (Some 0%nat) 2147483646) one_timer)
     = OutOfFuel.
Proof. repeat split; vm_compute; reflexivity. Qed.

(** The pass counter of a counting loop never goes down. *)
Lemma while_passes_grow {S} (cond : Z * Z -> M S bool) (step : M S unit)
  (f : Z -> Z) (fuel : nat) :
  forall (x n : Z) (st : S) (x' n' : Z) (st' : S),
    while_ fuel cond (fun '(x, n) => step ;; ret (f x, n + 1)) (x, n) st
    = (Normal (x', n'), st') ->
    n <= n'.
Proof.
  induction fuel as [| fuel IH]; intros x n st x' n' st' Hrun;
    cbn [while_] in Hrun; [discriminate |].
  unfold bind at 1 in Hrun.
  destruct (cond (x, n) st) as [[[] | e | |] st1]; try discriminate.
  - unfold bind at 1 in Hrun. unfold bind at 1 in Hrun.
    destruct (step st1) as [[[] | e | |] st2]; try discriminate.
    unfold ret at 1 in Hrun. apply IH in Hrun. lia.
  - unfold ret in Hrun. injection Hrun as _ Hn _. lia.
Qed.

(** A tick of the running timer whose addition leaves [int]: [elapsed]
    wraps below zero and the timer keeps running. *)
Lemma tick_running_wraps (T s i e : Z) :
  0 < s <= Int32.INT_MAX -> 0 <= e < T -> T <= Int32.INT_MAX ->
  Int32.INT_MAX < e + s ->
  Timer.tick s (Timer.mk T true e i)
  = (Normal tt, Timer.mk T true (e + s - 2 ^ 32) i).
Proof.
  intros Hs He HT Hover. unfold Timer.tick.
  replace (s <=? 0) with false by (symmetry; apply Z.leb_gt; lia).
  run_method. cbn [Timer.running Timer.seconds Timer.elapsed Timer.id negb].
  assert (Int32.add e s = e + s - 2 ^ 32) as ->.
  { unfold Int32.add, Int32.wrap, Int32.INT_MAX in *.
    replace (e + s + 2 ^ 31) with (e + s - 2 ^ 31 + 1 * 2 ^ 32) by lia.
    rewrite Z.mod_add by lia. rewrite Z.mod_small; lia. }
  replace (T <=? e + s - 2 ^ 32) with false
    by (symmetry; apply Z.leb_gt; unfold Int32.INT_MAX in *; lia).
  reflexivity.
Qed.

(** The loop entered with the timer running at [e], when
    [e + ceil_div (T - e) s * s] is above [INT_MAX]: no run ends after
    [ceil_div (T - e) s] more passes. *)
Lemma waitLoop_overflow (T s i : Z) (a : nat) (fuel : nat) :
  0 < s <= Int32.INT_MAX -> T <= Int32.INT_MAX ->
  forall (st : Store.t) (e minutesPassed passes : Z)
         (minutesPassed' : Z) (st' : Store.t),
    nth_error (Store.timers st) a = Some (Timer.mk T true e i) ->
    0 <= e < T ->
    Int32.INT_MAX < e + ceil_div (T - e) s * s ->
    while_ fuel
      (fun _ =>
         finished <- Store.on_timer (Some a) (reads Timer.isFinished) ;;
         ret (negb finished))
      (fun '(minutesPassed, passes) =>
         Store.on_timer (Some a) (Timer.tick s) ;;
         ret (Int32.add minutesPassed (Int32.div s 60), passes + 1))
      (minutesPassed, passes) st
    <> (Normal (minutesPassed', passes + ceil_div (T - e) s), st').
Proof.
  intros Hs HT.
  induction fuel as [| fuel IH]; intros st e mp n mp' st' Hat He Hover;
    [discriminate |].
  assert (0 < s) as Hs' by lia.
  cbn [while_]. unfold bind at 1. unfold bind at 1.
  rewrite (on_timer_run (reads Timer.isFinished) st a _ _ _ Hat eq_refl).
  rewrite (put_timer_same _ _ _ Hat).
  unfold ret at 1. cbn [Timer.isFinished Timer.running negb andb].
  unfold bind at 1. unfold bind at 1.
  destruct (Z_le_gt_dec (e + s) Int32.INT_MAX) as [Hone | Hwrap].
  - rewrite (on_timer_run _ st a _ _ _ Hat
               (tick_running_at T s i e Hs' He Hone)).
    unfold ret at 1.
    destruct (Z.leb_spec T (e + s)) as [Hdone | Hmore].
    + rewrite ceil_div_last in Hover by lia. lia.
    + pose proof (ceil_div_step s Hs' (T - e)) as Hstep.
      replace (T - e - s) with (T - (e + s)) in Hstep by lia.
      replace (n + ceil_div (T - e) s)
        with (n + 1 + ceil_div (T - (e + s)) s) by lia.
      apply (IH (Store.put_timer a (Timer.mk T true (e + s) i) st) (e + s)).
      * eapply timers_put_timer. exact Hat.
      * lia.
      * rewrite Hstep. lia.
  - rewrite (on_timer_run _ st a _ _ _ Hat
               (tick_running_wraps T s i e Hs He HT ltac:(lia))).
    unfold ret at 1.
    rewrite ceil_div_last by lia.
    destruct fuel as [| fuel]; [discriminate |].
    cbn [while_]. unfold bind at 1. unfold bind at 1.
    rewrite (on_timer_run (reads Timer.isFinished) _ a _ _ _
               (timers_put_timer _ _ _ _ Hat) eq_refl).
    unfold ret at 1. cbn [Timer.isFinished Timer.running negb andb].
    unfold bind at 1.
    destruct (bind _ _ _) as [[[x2 n2] | e2 | |] st2] eqn:Hbody;
      try discriminate.
    unfold bind in Hbody.
    destruct (Store.on_timer _ _ _) as [[[] | e3 | |] st3] in Hbody;
      try discriminate.
    unfold ret in Hbody. injection Hbody as _ <- _.
    intros Hrun.
    apply (while_passes_grow _ (Store.on_timer (Some a) (Timer.tick s))
             (fun x => Int32.add x (Int32.div s 60))) in Hrun.
    lia.
Qed.

(** The same for the whole wait: [timer->start(T)] and the loop never give
    a normal return with [ceil(T/s)] passes when [ceil(T/s) * s] is above
    [INT_MAX]. *)
Lemma wait_loop_bound_is_needed
  (st st' : Store.t) (a : nat) (tm : Timer.t) (T s : Z) (fuel : nat)
  (minutesPassed : Z) :
  nth_error (Store.timers st) a = Some tm ->
  0 < T <= Int32.INT_MAX -> 0 < s <= Int32.INT_MAX ->
  Int32.INT_MAX < ceil_div T s * s ->
  (Store.on_timer (Some a) (Timer.start T) ;; waitLoop fuel (Some a) s) st
  <> (Normal (minutesPassed, ceil_div T s), st').
Proof.
  intros Hat HT Hs Hover.
  assert (Timer.start T tm = (Normal tt, Timer.mk T true 0 (Timer.id tm)))
    as Hstart.
  { unfold Timer.start.
    replace (T <=? 0) with false by (symmetry; apply Z.leb_gt; lia).
    reflexivity. }
  unfold bind at 1. rewrite (on_timer_run _ st a _ _ _ Hat Hstart).
  unfold waitLoop.
  pose proof (waitLoop_overflow T s (Timer.id tm) a fuel Hs ltac:(lia)
                (Store.put_timer a (Timer.mk T true 0 (Timer.id tm)) st)
                0 0 0 minutesPassed st'
                (timers_put_timer _ _ _ _ Hat) ltac:(lia)) as Hloop.
  rewrite Z.sub_0_r, !Z.add_0_l in Hloop. apply Hloop. exact Hover.
Qed.

(** ** Oven *)

(** C6.  A default-constructed oven: after [preheat(180, 10)] and
    [tick(600)] the temperature is 180.0 and the oven is on; after
    [setTimerMinutes(1)] and [tick(60)] on top of that the oven is off. *)
Theorem oven_bake_cycle_scenario :
  exists hot off : Oven.t,
    (Oven.preheat (Double.of_int 180) 10 ;; Oven.tick 600) Oven.default
      = (Normal tt, hot)
    /\ Oven.getTemperature hot = Double.of_int 180
    /\ Oven.isOn hot = true
    /\ (Oven.setTimerMinutes 1 ;; Oven.tick 60) hot = (Normal tt, off)
    /\ Oven.isOn off = false.
Proof.
  eexists. eexists.
  split; [vm_compute; reflexivity |].
  split; [reflexivity |].
  split; [reflexivity |].
  split; [vm_compute; reflexivity | reflexivity].
Qed.

Lemma tick_returns (delta : Z) (tm : Timer.t) :
  exists tm', Timer.tick delta tm = (Normal tt, tm').
Proof.
  unfold Timer.tick. destruct (delta <=? 0); [eexists; reflexivity |].
  run_method. destruct (Timer.running tm); cbn [negb]; [| eexists; reflexivity].
  cbn [Timer.seconds Timer.elapsed].
  destruct (Timer.seconds tm <=? _); eexists; reflexivity.
Qed.

Lemma turnOff_result (o : Oven.t) :
  Oven.turnOff o
  = (Normal tt, Oven.set_temperature Double.zero (Oven.set_on false o)).
Proof. reflexivity. Qed.

(** C10.  [turnOff()] always returns with the oven off and the temperature
    0.0; and whichever call of the class takes an oven that was on to off
    (the explicit [turnOff], or a [tick] on which the bake timer finishes)
    leaves the temperature 0.0. *)
Theorem oven_switched_off_is_cold :
  (forall o : Oven.t,
     exists o', Oven.turnOff o = (Normal tt, o')
                /\ Oven.isOn o' = false
                /\ Oven.getTemperature o' = Double.zero)
  /\ (forall (c : Oven.call) (o o' : Oven.t) (r : completion unit),
       Oven.step c o = (r, o') ->
       Oven.isOn o = true -> Oven.isOn o' = false ->
       Oven.getTemperature o' = Double.zero).
Proof.
  split.
  - intros o. eexists. split; [apply turnOff_result | split; reflexivity].
  - intros c o o' r Hstep Hon Hoff. unfold Oven.isOn in *.
    destruct c as [tg w | | | | m | d]; cbn [Oven.step] in Hstep.
    + unfold Oven.preheat in Hstep. revert Hstep. run_method.
      destruct (_ || _); [intros [= _ <-]; congruence |].
      destruct (Oven.doorClosed o); cbn [negb]; [| intros [= _ <-]; congruence].
      destruct (w <=? 0); intros [= _ <-]; [congruence |].
      cbn [Oven.on Oven.set_on] in Hoff. discriminate.
    + rewrite turnOff_result in Hstep. injection Hstep as _ <-. reflexivity.
    + injection Hstep as _ <-. cbn [Oven.on Oven.set_doorClosed Oven.set_bakingTimer] in Hoff. congruence.
    + injection Hstep as _ <-. cbn [Oven.on Oven.set_doorClosed Oven.set_bakingTimer] in Hoff. congruence.
    + unfold Oven.setTimerMinutes in Hstep.
      destruct (m <=? 0); [injection Hstep as _ <-; congruence |].
      unfold zoom in Hstep. destruct (Timer.start _ _) as [r' tm'].
      injection Hstep as _ <-. cbn [Oven.on Oven.set_doorClosed Oven.set_bakingTimer] in Hoff. congruence.
    + unfold Oven.tick in Hstep.
      destruct (d <=? 0); [injection Hstep as _ <-; congruence |].
      revert Hstep. run_method. rewrite Hon.
      cbn [Oven.bakingTimer Oven.set_temperature Oven.set_elapsedSeconds].
      destruct (tick_returns d (Oven.bakingTimer o)) as [tm' ->].
      unfold Oven.set_temperature, Oven.set_elapsedSeconds, Oven.set_bakingTimer.
      cbn [Oven.on Oven.bakingTimer]. rewrite Hon, andb_true_r.
      destruct (Timer.isFinished tm'); intros [= _ <-];
        [reflexivity | cbn [Oven.on Oven.set_doorClosed Oven.set_bakingTimer] in Hoff; congruence].
Qed.

Lemma oven_switched_off_is_cold_witness :
  Oven.isOn baking_oven = true
  /\ Oven.getTemperature (snd (Oven.tick 30 baking_oven)) = Double.of_int 9
  /\ Oven.isOn (snd (Oven.step (Oven.Tick 60) baking_oven)) = false
  /\ Oven.getTemperature (snd (Oven.step (Oven.Tick 60) baking_oven))
     = Double.zero.
Proof.
  assert (Oven.isOn baking_oven = true) as Hon by (vm_compute; reflexivity).
  assert (Oven.isOn (snd (Oven.step (Oven.Tick 60) baking_oven)) = false)
    as Hoff by (vm_compute; reflexivity).
  split; [exact Hon |].
  split; [vm_compute; reflexivity |].
  split; [exact Hoff |].
  destruct oven_switched_off_is_cold as [_ H].
  exact (H (Oven.Tick 60) baking_oven _ _ (surjective_pairing _) Hon Hoff).
Defined.

(** ** The chicken-soup procedure *)

(** A [const] call through a pointer leaves the store as it was. *)
Lemma on_pot_reads {A} (f : Pot.t -> A) (st : Store.t) (i : nat) (p : Pot.t) :
  nth_error (Store.pots st) i = Some p ->
  Store.on_pot (Some i) (reads f) st = (Normal (f p), st).
Proof.
  intros H. unfold Store.on_pot, Store.deref, reads. rewrite H.
  rewrite write_same by exact H. destruct st; reflexivity.
Qed.

Example cookChickenSoup_success :
  exists st',
    cook 7 soup (soup_kitchen (Double.of_int 3)) = (Normal tt, st')
    /\ map Ingredient.mass (Store.ingredients st')
       = [Normal (Double.of_int 850); Normal (Double.of_int 900)]
    /\ Store.timers st' = [Timer.mk 1800 false 1800 0].
Proof.
  eexists. split; [vm_compute; reflexivity |]. split; vm_compute; reflexivity.
Qed.

(** C8.  [canBoil(liters)] is the comparison [liters <= volume]; a pot of
    volume 1.0 answers false to [canBoil(1.5)]; and in [cookChickenSoup],
    when the three pointers are set and the pot answers false to
    [canBoil(1.5)], the call throws [NotEnoughIngredientException] with the
    whole store, so the chicken and the vegetables too, as it was. *)
Theorem canBoil_refusal_precedes_consumption :
  (forall (p : Pot.t) (liters : double),
     Pot.canBoil p liters = true
     <-> (SFcompare liters (Pot.volume p) = Some Lt
          \/ SFcompare liters (Pot.volume p) = Some Eq))
  /\ (forall p : Pot.t,
       Pot.volume p = Double.of_int 1 ->
       Pot.canBoil p (Double.lit 3 (-1)) = false)
  /\ (forall (fuel : nat) (dish : ChickenSoupDish.t) (st : Store.t)
            (i : nat) (p : Pot.t),
       ChickenSoupDish.use_pot dish = Some i ->
       nth_error (Store.pots st) i = Some p ->
       Store.is_null (ChickenSoupDish.use_stove dish) = false ->
       Store.is_null (ChickenSoupDish.use_boilTimer dish) = false ->
       Pot.canBoil p (Double.lit 3 (-1)) = false ->
       cookChickenSoup fuel dish st = (Throw NotEnoughIngredientException, st)).
Proof.
  split; [| split].
  - intros p liters. unfold Pot.canBoil, Double.leb, SFleb.
    destruct (SFcompare liters (Pot.volume p)) as [[| |] |]; split; intros H;
      try reflexivity; try discriminate; auto;
      destruct H as [H | H]; discriminate.
  - intros p Hv. unfold Pot.canBoil. rewrite Hv. reflexivity.
  - intros fuel dish st i p Hpot Hp Hstove Htimer Hfits.
    unfold cookChickenSoup. rewrite Hpot, Hstove, Htimer.
    cbn [Store.is_null]. unfold bind at 1.
    rewrite (on_pot_reads _ st i p Hp), Hfits. reflexivity.
Qed.

Lemma canBoil_refusal_precedes_consumption_witness :
  cookChickenSoup 7 soup (soup_kitchen (Double.of_int 1))
  = (Throw NotEnoughIngredientException, soup_kitchen (Double.of_int 1)).
Proof.
  destruct canBoil_refusal_precedes_consumption as (_ & _ & Habort).
  apply (Habort 7%nat soup (soup_kitchen (Double.of_int 1)) 0%nat
           (Pot.new "pot" (Double.of_int 1) true false));
    reflexivity.
Defined.

(** * Further properties of the classes *)

(** ** Ingredient: what a refused call leaves, and what is not refused *)

Lemma toGrams_unit_none (q : Quantity.t) :
  Quantity.unit q = None -> Quantity.toGrams q = Throw StorageException.
Proof. unfold Quantity.toGrams. intros ->. reflexivity. Qed.

(** X1.  [addAmount] and [useAmount] on an ingredient whose quantity has no
    unit throw [StorageException]; [useAmount] of more than the mass throws
    [NotEnoughIngredientException]; and whatever either call throws, the
    ingredient is left as it was. *)
Theorem ingredient_refusals_change_nothing (i : Ingredient.t) (v : double) :
  (Quantity.unit (Ingredient.quantity i) = None ->
     Ingredient.addAmount v i = (Throw StorageException, i)
     /\ Ingredient.useAmount v i = (Throw StorageException, i))
  /\ (forall g, Ingredient.mass i = Normal g -> Double.gtb v g = true ->
        Ingredient.useAmount v i = (Throw NotEnoughIngredientException, i))
  /\ (forall e i', Ingredient.addAmount v i = (Throw e, i') -> i' = i)
  /\ (forall e i', Ingredient.useAmount v i = (Throw e, i') -> i' = i).
Proof.
  refine (conj _ (conj _ (conj _ _))).
  - intros Hu. apply toGrams_unit_none in Hu.
    unfold Ingredient.addAmount, Ingredient.useAmount, bind, const_call.
    rewrite Hu. split; reflexivity.
  - intros g Hg Hv. unfold Ingredient.mass in Hg.
    unfold Ingredient.useAmount, bind, const_call. rewrite Hg, Hv. reflexivity.
  - intros e i'. unfold Ingredient.addAmount, bind, const_call.
    destruct (Quantity.toGrams (Ingredient.quantity i)) as [g | e0 | |];
      try (intros [= _ <-]; reflexivity).
    destruct (Double.gtb g Double.zero); discriminate.
  - intros e i'. unfold Ingredient.useAmount, bind, const_call.
    destruct (Quantity.toGrams (Ingredient.quantity i)) as [g | e0 | |];
      try (intros [= _ <-]; reflexivity).
    destruct (Double.gtb v g); [intros [= _ <-]; reflexivity |].
    destruct (Double.gtb g Double.zero); discriminate.
Qed.

Lemma ingredient_refusals_change_nothing_witness :
  Ingredient.useAmount (Double.of_int 200) flour
  = (Throw NotEnoughIngredientException, flour).
Proof.
  destruct (ingredient_refusals_change_nothing flour (Double.of_int 200))
    as (_ & H & _).
  apply (H (Double.of_int 150)); reflexivity.
Defined.

(** X2.  The test [vGrams > grams] lets a NaN through: on any stock of
    positive mass, [useAmount(NaN)] returns normally and the mass afterwards
    is NaN. *)
Theorem useAmount_nan_spoils_stock (i : Ingredient.t) (g : double) :
  Ingredient.mass i = Normal g ->
  Double.gtb g Double.zero = true ->
  exists i',
    Ingredient.useAmount S754_nan i = (Normal tt, i')
    /\ Ingredient.mass i' = Normal S754_nan.
Proof.
  destruct i as [n [v [u |] ap qid] cal per]; [| discriminate].
  unfold Ingredient.mass, Quantity.toGrams, Unit.toGrams.
  cbn [Ingredient.quantity Quantity.unit Quantity.value].
  intros [= <-] Hpos.
  assert (Double.gtb S754_nan (Double.mul v (Unit.gramsPerUnit u)) = false) as Hcmp
    by (unfold Double.gtb, SFltb, SFcompare;
        destruct (Double.mul v (Unit.gramsPerUnit u)); reflexivity).
  assert (Double.div (Double.sub (Double.mul v (Unit.gramsPerUnit u)) S754_nan)
            (Double.mul v (Unit.gramsPerUnit u)) = S754_nan) as Hfactor
    by (destruct (Double.mul v (Unit.gramsPerUnit u)); reflexivity).
  assert (Double.mul v S754_nan = S754_nan) as Hscaled
    by (destruct v; reflexivity).
  eexists. split.
  - unfold Ingredient.useAmount, bind, const_call, Quantity.toGrams, Unit.toGrams.
    cbn [Ingredient.quantity Quantity.unit Quantity.value].
    rewrite Hcmp, Hpos. unfold zoom, Quantity.scale, modify.
    cbn [Ingredient.quantity Quantity.value]. rewrite Hfactor, Hscaled.
    reflexivity.
  - reflexivity.
Qed.

Lemma useAmount_nan_spoils_stock_witness :
  exists i',
    Ingredient.useAmount S754_nan flour = (Normal tt, i')
    /\ Ingredient.mass i' = Normal S754_nan.
Proof.
  apply (useAmount_nan_spoils_stock flour (Double.of_int 150)); reflexivity.
Defined.

(** ** KitchenTool: the life of a tool *)

Lemma isAvailable_true_inv (k : KitchenTool.t) :
  KitchenTool.isAvailable k = true ->
  KitchenTool.available k = true /\ KitchenTool.clean k = true
  /\ 0 < KitchenTool.durability k.
Proof.
  unfold KitchenTool.isAvailable.
  destruct (KitchenTool.available k), (KitchenTool.clean k); cbn [andb];
    try discriminate.
  intros H. apply Z.ltb_lt in H. auto.
Qed.

(** One use of a usable tool, whatever its [busy] flag. *)
Lemma useTool_available (k : KitchenTool.t) :
  KitchenTool.isAvailable k = true ->
  KitchenTool.durability k <= Int32.INT_MAX ->
  KitchenTool.useTool k
  = (Normal tt,
     KitchenTool.mk (KitchenTool.name k) true (1 <? KitchenTool.durability k)
       false (KitchenTool.durability k - 1)).
Proof.
  intros Hav Hmax. destruct (isAvailable_true_inv k Hav) as (Ha & Hc & Hd).
  destruct k as [n c a b d]. cbn [KitchenTool.available KitchenTool.clean
    KitchenTool.durability KitchenTool.name] in *. subst c a.
  unfold KitchenTool.useTool. run_method.
  cbn [KitchenTool.available KitchenTool.clean KitchenTool.durability negb orb].
  replace (d <=? 0) with false by (symmetry; apply Z.leb_gt; lia).
  unfold KitchenTool.set_busy, KitchenTool.set_durability,
    KitchenTool.set_available.
  cbn [KitchenTool.available KitchenTool.clean KitchenTool.durability
       KitchenTool.name KitchenTool.busy].
  unfold Int32.sub. rewrite wrap_in_range
    by (unfold Int32.in_range, Int32.INT_MIN, Int32.INT_MAX in *; lia).
  destruct (Z.leb_spec (d - 1) 0) as [Hle | Hgt].
  - replace (d - 1) with 0 by lia.
    replace (1 <? d) with false by (symmetry; apply Z.ltb_ge; lia).
    reflexivity.
  - replace (1 <? d) with true by (symmetry; apply Z.ltb_lt; lia).
    reflexivity.
Qed.

Lemma tool_step_keeps_unavailable (c : tool_call) (k : KitchenTool.t) :
  KitchenTool.available k = false ->
  KitchenTool.available (snd (tool_step c k)) = false.
Proof.
  intros H. destruct c; cbn [tool_step].
  - rewrite useTool_unusable; [exact H |].
    unfold KitchenTool.isAvailable. rewrite H. reflexivity.
  - exact H.
  - reflexivity.
Qed.

(** X3.  No call of the class sets [available]: a tool that is unavailable,
    because it was broken or because its last use wore it out, is not usable
    after any sequence of [useTool], [cleanTool] and [breakTool] calls. *)
Theorem unavailable_tool_never_recovers (k : KitchenTool.t) (cs : list tool_call) :
  KitchenTool.available k = false ->
  KitchenTool.available (after tool_step cs k) = false
  /\ KitchenTool.isAvailable (after tool_step cs k) = false.
Proof.
  revert k. induction cs as [| c cs IH]; intros k H.
  - split; [exact H |]. unfold KitchenTool.isAvailable.
    cbn [after fold_left]. rewrite H. reflexivity.
  - cbn [after fold_left]. apply IH. apply tool_step_keeps_unavailable. exact H.
Qed.

Lemma unavailable_tool_never_recovers_witness :
  KitchenTool.isAvailable
    (after tool_step [BreakTool; CleanTool; UseTool; CleanTool]
       (fresh_tool "tool" 5)) = false.
Proof.
  apply (unavailable_tool_never_recovers
           (snd (tool_step BreakTool (fresh_tool "tool" 5)))
           [CleanTool; UseTool; CleanTool]).
  reflexivity.
Defined.

Lemma tool_step_durability (c : tool_call) (k : KitchenTool.t) :
  0 <= KitchenTool.durability k <= Int32.INT_MAX ->
  0 <= KitchenTool.durability (snd (tool_step c k)) <= KitchenTool.durability k.
Proof.
  intros H. destruct c; cbn [tool_step].
  - destruct (KitchenTool.isAvailable k) eqn:Hav.
    + rewrite useTool_available by (exact Hav || lia).
      apply isAvailable_true_inv in Hav. cbn [snd KitchenTool.durability]. lia.
    + rewrite useTool_unusable by exact Hav. cbn [snd]. lia.
  - cbn. lia.
  - cbn. lia.
Qed.

(** X4.  Durability only goes down and never below zero: from a tool with
    durability in [0, INT_MAX], after any sequence of [useTool], [cleanTool]
    and [breakTool] calls the durability is between 0 and what it was. *)
Theorem durability_never_grows (k : KitchenTool.t) (cs : list tool_call) :
  0 <= KitchenTool.durability k <= Int32.INT_MAX ->
  0 <= KitchenTool.durability (after tool_step cs k) <= KitchenTool.durability k.
Proof.
  revert k. induction cs as [| c cs IH]; intros k H.
  - cbn [after fold_left]. lia.
  - cbn [after fold_left].
    pose proof (tool_step_durability c k H) as Hstep.
    pose proof (IH (snd (tool_step c k)) ltac:(lia)) as Hrest.
    unfold after in Hrest. lia.
Qed.

Lemma durability_never_grows_witness :
  0 <= KitchenTool.durability
         (after tool_step [UseTool; CleanTool; UseTool; UseTool; UseTool]
            (fresh_tool "tool" 2)) <= 2.
Proof.
  apply (durability_never_grows (fresh_tool "tool" 2)
           [UseTool; CleanTool; UseTool; UseTool; UseTool]).
  unfold Int32.INT_MAX. cbn. lia.
Defined.

(** ** The tools built on KitchenTool *)

(** X5.  On a usable pan, pot or masher with durability up to [INT_MAX],
    [heatUp], [startBoil] and [mash] return normally after exactly one use
    of the tool: durability goes down by one, [available] stays set only if
    more than one use was left, [busy] ends false; the vessel is put on the
    stove and its other fields are kept. *)
Theorem vessel_call_uses_the_tool_once :
  (forall p : Pan.t,
     KitchenTool.isAvailable (Pan.base p) = true ->
     KitchenTool.durability (Pan.base p) <= Int32.INT_MAX ->
     Pan.heatUp p
     = (Normal tt,
        Pan.mk (KitchenTool.mk (KitchenTool.name (Pan.base p)) true
                  (1 <? KitchenTool.durability (Pan.base p)) false
                  (KitchenTool.durability (Pan.base p) - 1))
          (Pan.diameter p) (Pan.nonStick p) true))
  /\ (forall p : Pot.t,
       KitchenTool.isAvailable (Pot.base p) = true ->
       KitchenTool.durability (Pot.base p) <= Int32.INT_MAX ->
       Pot.startBoil p
       = (Normal tt,
          Pot.mk (KitchenTool.mk (KitchenTool.name (Pot.base p)) true
                    (1 <? KitchenTool.durability (Pot.base p)) false
                    (KitchenTool.durability (Pot.base p) - 1))
            (Pot.volume p) (Pot.hasLid p) true))
  /\ (forall m : PotatoMasher.t,
       KitchenTool.isAvailable (PotatoMasher.base m) = true ->
       KitchenTool.durability (PotatoMasher.base m) <= Int32.INT_MAX ->
       PotatoMasher.mash m
       = (Normal tt,
          PotatoMasher.mk
            (KitchenTool.mk (KitchenTool.name (PotatoMasher.base m)) true
               (1 <? KitchenTool.durability (PotatoMasher.base m)) false
               (KitchenTool.durability (PotatoMasher.base m) - 1))
            (PotatoMasher.id m))).
Proof.
  refine (conj _ (conj _ _)).
  - intros p Hav Hmax. unfold Pan.heatUp. run_method. rewrite Hav.
    cbn [negb]. rewrite (useTool_available _ Hav Hmax). reflexivity.
  - intros p Hav Hmax. unfold Pot.startBoil. run_method. rewrite Hav.
    cbn [negb]. rewrite (useTool_available _ Hav Hmax). reflexivity.
  - intros m Hav Hmax. unfold PotatoMasher.mash. run_method. rewrite Hav.
    cbn [negb]. rewrite (useTool_available _ Hav Hmax). reflexivity.
Qed.

Lemma vessel_call_uses_the_tool_once_witness :
  Pan.heatUp (Pan.mk (fresh_tool "pan" 1) (Double.of_int 24) true false)
  = (Normal tt, Pan.mk (worn_tool "pan") (Double.of_int 24) true true).
Proof.
  destruct vessel_call_uses_the_tool_once as (H & _).
  apply (H (Pan.mk (fresh_tool "pan" 1) (Double.of_int 24) true false));
    [reflexivity | unfold Int32.INT_MAX; cbn; lia].
Defined.

(** X6.  The mixer: [plugIn] always answers true, so a procedure's test
    [if (!mixer->plugIn())] never fires; [mix] on an unplugged mixer returns
    normally without touching it, usable or not; [plugIn] then [mix] on an
    unusable mixer throws [ToolNotAvailableException] and leaves the mixer
    plugged in; on a usable one it uses the tool once. *)
Theorem mixer_plug_and_mix (m : Mixer.t) :
  Mixer.plugIn m = (Normal true, Mixer.set_pluggedIn true m)
  /\ (Mixer.pluggedIn m = false -> Mixer.mix m = (Normal tt, m))
  /\ (Mixer.unplug ;; Mixer.mix) m = (Normal tt, Mixer.set_pluggedIn false m)
  /\ (KitchenTool.isAvailable (Mixer.base m) = false ->
      (Mixer.plugIn ;; Mixer.mix) m
      = (Throw ToolNotAvailableException, Mixer.set_pluggedIn true m))
  /\ (KitchenTool.isAvailable (Mixer.base m) = true ->
      KitchenTool.durability (Mixer.base m) <= Int32.INT_MAX ->
      (Mixer.plugIn ;; Mixer.mix) m
      = (Normal tt,
         Mixer.mk (KitchenTool.mk (KitchenTool.name (Mixer.base m)) true
                     (1 <? KitchenTool.durability (Mixer.base m)) false
                     (KitchenTool.durability (Mixer.base m) - 1))
           true)).
Proof.
  refine (conj _ (conj _ (conj _ (conj _ _)))).
  - reflexivity.
  - intros H. unfold Mixer.mix. run_method. rewrite H. reflexivity.
  - reflexivity.
  - intros Hav. unfold Mixer.plugIn, Mixer.mix. run_method.
    cbn [Mixer.set_pluggedIn Mixer.pluggedIn Mixer.base negb].
    rewrite Hav. reflexivity.
  - intros Hav Hmax. unfold Mixer.plugIn, Mixer.mix. run_method.
    cbn [Mixer.set_pluggedIn Mixer.pluggedIn Mixer.base negb].
    rewrite Hav. cbn [negb]. unfold Mixer.set_pluggedIn. cbn [Mixer.base].
    rewrite (useTool_available _ Hav Hmax). reflexivity.
Qed.

Lemma mixer_plug_and_mix_witness :
  Mixer.mix (Mixer.mk dirty_tool false) = (Normal tt, Mixer.mk dirty_tool false)
  /\ (Mixer.plugIn ;; Mixer.mix) (Mixer.mk dirty_tool false)
     = (Throw ToolNotAvailableException, Mixer.mk dirty_tool true).
Proof.
  destruct (mixer_plug_and_mix (Mixer.mk dirty_tool false))
    as (_ & Hoff & _ & Hbad & _).
  split; [apply Hoff; reflexivity | apply Hbad; reflexivity].
Defined.

(** ** Stove: the burner counter *)

Lemma turnOnBurner_free (s : Stove.t) :
  Int32.INT_MIN <= Stove.activeBurners s ->
  Stove.activeBurners s < Stove.burners s <= Int32.INT_MAX ->
  Stove.turnOnBurner s
  = (Normal tt,
     Stove.mk (Stove.burners s) (Stove.activeBurners s + 1) (Stove.gas s) true).
Proof.
  intros Hmin Hfree. unfold Stove.turnOnBurner. run_method.
  replace (Stove.activeBurners s <? Stove.burners s) with true
    by (symmetry; apply Z.ltb_lt; lia).
  cbn [Stove.burners Stove.activeBurners Stove.gas Stove.on].
  unfold Int32.add. rewrite wrap_in_range
    by (unfold Int32.in_range, Int32.INT_MIN, Int32.INT_MAX in *; lia).
  reflexivity.
Qed.

Lemma turnOnBurner_full (s : Stove.t) :
  Stove.burners s <= Stove.activeBurners s ->
  Stove.turnOnBurner s = (Normal tt, s).
Proof.
  intros Hfull. unfold Stove.turnOnBurner. run_method.
  replace (Stove.activeBurners s <? Stove.burners s) with false
    by (symmetry; apply Z.ltb_ge; lia).
  reflexivity.
Qed.

Lemma turnOffBurner_active (s : Stove.t) :
  0 < Stove.activeBurners s <= Int32.INT_MAX ->
  Stove.turnOffBurner s
  = (Normal tt,
     Stove.mk (Stove.burners s) (Stove.activeBurners s - 1) (Stove.gas s)
       (if Stove.activeBurners s - 1 =? 0 then false else Stove.on s)).
Proof.
  intros Hact. unfold Stove.turnOffBurner. run_method.
  replace (0 <? Stove.activeBurners s) with true
    by (symmetry; apply Z.ltb_lt; lia).
  cbn [Stove.burners Stove.activeBurners Stove.gas Stove.on].
  unfold Int32.sub. rewrite wrap_in_range
    by (unfold Int32.in_range, Int32.INT_MIN, Int32.INT_MAX in *; lia).
  destruct (Stove.activeBurners s - 1 =? 0); reflexivity.
Qed.

Lemma turnOffBurner_idle (s : Stove.t) :
  Stove.activeBurners s <= 0 -> Stove.turnOffBurner s = (Normal tt, s).
Proof.
  intros Hidle. unfold Stove.turnOffBurner. run_method.
  replace (0 <? Stove.activeBurners s) with false
    by (symmetry; apply Z.ltb_ge; lia).
  reflexivity.
Qed.

Lemma stove_step_invariant (c : stove_call) (s : Stove.t) :
  0 <= Stove.activeBurners s <= Stove.burners s ->
  Stove.burners s <= Int32.INT_MAX ->
  Stove.burners (snd (stove_step c s)) = Stove.burners s
  /\ 0 <= Stove.activeBurners (snd (stove_step c s)) <= Stove.burners s
  /\ (Stove.on s = (0 <? Stove.activeBurners s) ->
      Stove.on (snd (stove_step c s))
      = (0 <? Stove.activeBurners (snd (stove_step c s)))).
Proof.
  intros Hact Hmax. destruct c; cbn [stove_step].
  - destruct (Z_lt_ge_dec (Stove.activeBurners s) (Stove.burners s)) as [Hf | Hf].
    + rewrite turnOnBurner_free
        by (unfold Int32.INT_MIN; lia).
      cbn [snd Stove.burners Stove.activeBurners Stove.on].
      refine (conj eq_refl (conj _ _)); [lia |].
      intros _. symmetry. apply Z.ltb_lt. lia.
    + rewrite turnOnBurner_full by lia. cbn [snd].
      refine (conj eq_refl (conj _ _)); [lia | auto].
  - destruct (Z_lt_ge_dec 0 (Stove.activeBurners s)) as [Ha | Ha].
    + rewrite turnOffBurner_active by lia.
      cbn [snd Stove.burners Stove.activeBurners Stove.on].
      refine (conj eq_refl (conj _ _)); [lia |].
      intros Hon. destruct (Z.eqb_spec (Stove.activeBurners s - 1) 0) as [Hz | Hz].
      * rewrite Hz. reflexivity.
      * rewrite Hon.
        replace (0 <? Stove.activeBurners s) with true
          by (symmetry; apply Z.ltb_lt; lia).
        symmetry. apply Z.ltb_lt. lia.
    + rewrite turnOffBurner_idle by lia. cbn [snd].
      refine (conj eq_refl (conj _ _)); [lia | auto].
Qed.

(** X7.  The burner counter saturates: from a stove with
    [0 <= activeBurners <= burners <= INT_MAX], after any sequence of
    [turnOnBurner] and [turnOffBurner] calls, none of which throws, the
    number of burners is what it was, [activeBurners] is still between 0
    and it, [freeBurners()] is [burners - activeBurners] and not negative,
    and if [on] told whether a burner was active it still does. *)
Theorem stove_counter_stays_in_bounds (s : Stove.t) (cs : list stove_call) :
  0 <= Stove.activeBurners s <= Stove.burners s ->
  Stove.burners s <= Int32.INT_MAX ->
  Stove.burners (after stove_step cs s) = Stove.burners s
  /\ 0 <= Stove.activeBurners (after stove_step cs s) <= Stove.burners s
  /\ Stove.freeBurners (after stove_step cs s)
     = Stove.burners s - Stove.activeBurners (after stove_step cs s)
  /\ 0 <= Stove.freeBurners (after stove_step cs s)
  /\ (Stove.on s = (0 <? Stove.activeBurners s) ->
      Stove.on (after stove_step cs s)
      = (0 <? Stove.activeBurners (after stove_step cs s))).
Proof.
  intros Hact Hmax.
  assert (Stove.burners (after stove_step cs s) = Stove.burners s
          /\ 0 <= Stove.activeBurners (after stove_step cs s) <= Stove.burners s
          /\ (Stove.on s = (0 <? Stove.activeBurners s) ->
              Stove.on (after stove_step cs s)
              = (0 <? Stove.activeBurners (after stove_step cs s)))) as Hinv.
  { revert s Hact Hmax. induction cs as [| c cs IH]; intros s Hact Hmax.
    - cbn [after fold_left]. refine (conj eq_refl (conj _ _)); [lia | auto].
    - cbn [after fold_left].
      destruct (stove_step_invariant c s Hact Hmax) as (Hb & Ha & Hon).
      destruct (IH (snd (stove_step c s))) as (Hb' & Ha' & Hon'); try lia.
      unfold after in *. refine (conj _ (conj _ _)); [lia | lia | auto]. }
  destruct Hinv as (Hb & Ha & Hon).
  assert (Stove.freeBurners (after stove_step cs s)
          = Stove.burners s - Stove.activeBurners (after stove_step cs s)) as Hfree.
  { unfold Stove.freeBurners, Int32.sub. rewrite Hb. apply wrap_in_range.
    unfold Int32.in_range, Int32.INT_MIN, Int32.INT_MAX in *. lia. }
  refine (conj Hb (conj Ha (conj Hfree (conj _ Hon)))).
  rewrite Hfree. lia.
Qed.

Lemma stove_counter_stays_in_bounds_witness :
  Stove.freeBurners
    (after stove_step
       [TurnOffBurner; TurnOnBurner; TurnOnBurner; TurnOnBurner; TurnOffBurner]
       (Stove.mk 2 0 true false)) = 1.
Proof.
  destruct (stove_counter_stays_in_bounds (Stove.mk 2 0 true false)
              [TurnOffBurner; TurnOnBurner; TurnOnBurner; TurnOnBurner;
               TurnOffBurner])
    as (_ & _ & Hfree & _);
    [cbn; lia | unfold Int32.INT_MAX; cbn; lia |].
  rewrite Hfree. reflexivity.
Defined.



(** ** Timer: counting up to the target *)


Lemma tick_nonpositive (tm : Timer.t) (delta : Z) :
  delta <= 0 -> Timer.tick delta tm = (Normal tt, tm).
Proof.
  intros H. unfold Timer.tick.
  replace (delta <=? 0) with true by (symmetry; apply Z.leb_le; lia).
  reflexivity.
Qed.




(** ** TemperatureProfile: the end of the warm-up *)

Lemma geb_refl (x : double) : Double.geb x x = negb (is_nan x).
Proof.
  unfold Double.geb, SFleb, SFcompare.
  destruct x as [s | s | | s m e]; try reflexivity.
  - destruct s; reflexivity.
  - rewrite Z.compare_refl, Pos.compare_cont_refl. destruct s; reflexivity.
Qed.

(** X10.  From [elapsed = duration] on, and for every [elapsed] when the
    duration is not positive or the profile is not gradual, [currentTemp] is
    [targetTemp] itself, with no rounding, also right after a [reset]; and
    [isReached] of that temperature is true unless the target is NaN. *)
Theorem currentTemp_reaches_target (p : TemperatureProfile.t) (elapsed : Z) :
  TemperatureProfile.duration p <= elapsed
  \/ TemperatureProfile.duration p <= 0
  \/ TemperatureProfile.gradual p = false ->
  TemperatureProfile.currentTemp p elapsed = TemperatureProfile.targetTemp p
  /\ TemperatureProfile.isReached p (TemperatureProfile.currentTemp p elapsed)
     = negb (is_nan (TemperatureProfile.targetTemp p))
  /\ (forall s tg d,
        d <= elapsed ->
        TemperatureProfile.currentTemp
          (snd (TemperatureProfile.reset s tg d p)) elapsed = tg).
Proof.
  intros H.
  assert (TemperatureProfile.currentTemp p elapsed
          = TemperatureProfile.targetTemp p) as Hcur.
  { unfold TemperatureProfile.currentTemp.
    destruct H as [H | [H | H]].
    - replace (TemperatureProfile.duration p <=? elapsed) with true
        by (symmetry; apply Z.leb_le; lia).
      rewrite orb_true_r. reflexivity.
    - replace (TemperatureProfile.duration p <=? 0) with true
        by (symmetry; apply Z.leb_le; lia).
      rewrite orb_true_r. reflexivity.
    - rewrite H. reflexivity. }
  refine (conj Hcur (conj _ _)).
  - rewrite Hcur. unfold TemperatureProfile.isReached. apply geb_refl.
  - intros s tg d Hd. unfold TemperatureProfile.reset, modify. cbn [snd].
    unfold TemperatureProfile.currentTemp.
    cbn [TemperatureProfile.gradual TemperatureProfile.duration
         TemperatureProfile.targetTemp].
    replace (d <=? elapsed) with true by (symmetry; apply Z.leb_le; lia).
    rewrite orb_true_r. reflexivity.
Qed.

Lemma currentTemp_reaches_target_witness :
  TemperatureProfile.currentTemp warmup 10 = Double.of_int 180
  /\ TemperatureProfile.isReached warmup (TemperatureProfile.currentTemp warmup 10)
     = true.
Proof.
  destruct (currentTemp_reaches_target warmup 10) as (H1 & H2 & _).
  - left. cbn. lia.
  - split; [exact H1 | exact H2].
Defined.

(** ** Oven: refusals, the idle oven, the stale timer *)

Ltac oven_fields :=
  unfold Oven.set_temperature, Oven.set_on, Oven.set_doorClosed,
    Oven.set_bakingTimer, Oven.set_profile, Oven.set_elapsedSeconds;
  cbn [Oven.temperature Oven.on Oven.doorClosed Oven.bakingTimer Oven.profile
       Oven.elapsedSeconds].

(** A tick of an oven that is on. *)
Lemma oven_tick_on (o : Oven.t) (d : Z) :
  0 < d -> Oven.on o = true ->
  Oven.tick d o
  = (Normal tt,
     let tm := snd (Timer.tick d (Oven.bakingTimer o)) in
     let es := Int32.add (Oven.elapsedSeconds o) d in
     if Timer.isFinished tm then
       Oven.mk Double.zero false (Oven.doorClosed o) tm (Oven.profile o) es
     else
       Oven.mk (TemperatureProfile.currentTemp (Oven.profile o) es) true
         (Oven.doorClosed o) tm (Oven.profile o) es).
Proof.
  intros Hd Hon. unfold Oven.tick.
  replace (d <=? 0) with false by (symmetry; apply Z.leb_gt; lia).
  run_method. rewrite Hon. oven_fields.
  destruct (tick_returns d (Oven.bakingTimer o)) as [tm Htm]. rewrite Htm.
  cbn [snd]. oven_fields. cbv zeta. rewrite !Hon, andb_true_r.
  destruct (Timer.isFinished tm); [rewrite turnOff_result |]; reflexivity.
Qed.

(** A tick of an oven that is off. *)
Lemma oven_tick_off (o : Oven.t) (d : Z) :
  Oven.on o = false ->
  Oven.tick d o
  = (Normal tt, Oven.set_bakingTimer (snd (Timer.tick d (Oven.bakingTimer o))) o).
Proof.
  intros Hoff. unfold Oven.tick.
  destruct (Z.leb_spec d 0) as [Hd | Hd].
  - rewrite tick_nonpositive by exact Hd. cbn [snd].
    destruct o; reflexivity.
  - run_method. rewrite Hoff.
    destruct (tick_returns d (Oven.bakingTimer o)) as [tm Htm]. rewrite Htm.
    cbn [snd]. oven_fields. rewrite Hoff, andb_false_r. reflexivity.
Qed.

(** X11.  Of the six calls of [Oven] only [preheat] and [setTimerMinutes]
    throw, [InvalidTemperatureException] and [TimerNotSetException]
    respectively, and a call that throws leaves the oven as it was. *)
Theorem oven_refusals_change_nothing
  (c : Oven.call) (o o' : Oven.t) (e : exn) :
  Oven.step c o = (Throw e, o') ->
  o' = o
  /\ ((exists tg w, c = Oven.Preheat tg w /\ e = InvalidTemperatureException)
      \/ (exists m, c = Oven.SetTimerMinutes m /\ e = TimerNotSetException)).
Proof.
  destruct c as [tg w | | | | m | d]; cbn [Oven.step].
  - unfold Oven.preheat. run_method.
    destruct (_ || _); [intros [= <- <-]; eauto 6 |].
    destruct (Oven.doorClosed o); cbn [negb]; [| intros [= <- <-]; eauto 6].
    destruct (w <=? 0); [intros [= <- <-]; eauto 6 | discriminate].
  - rewrite turnOff_result. discriminate.
  - discriminate.
  - discriminate.
  - unfold Oven.setTimerMinutes.
    destruct (m <=? 0); [intros [= <- <-]; eauto 6 |].
    unfold zoom, Timer.start.
    destruct (Int32.mul m 60 <=? 0); [| discriminate].
    unfold throw. intros [= <- <-]. split; [destruct o; reflexivity | eauto 6].
  - destruct (tick_returns d (Oven.bakingTimer o)) as [tm Htm].
    destruct (Oven.on o) eqn:Hon.
    + destruct (Z.leb_spec d 0) as [Hd | Hd].
      * unfold Oven.tick.
        replace (d <=? 0) with true by (symmetry; apply Z.leb_le; lia).
        discriminate.
      * rewrite (oven_tick_on o d Hd Hon). discriminate.
    + rewrite (oven_tick_off o d Hon). discriminate.
Qed.

Lemma oven_refusals_change_nothing_witness :
  Oven.step (Oven.Preheat (Double.of_int 400) 10) Oven.default
    = (Throw InvalidTemperatureException, Oven.default)
  /\ snd (Oven.step (Oven.SetTimerMinutes 0) baking_oven) = baking_oven.
Proof.
  split; [reflexivity |].
  apply (oven_refusals_change_nothing (Oven.SetTimerMinutes 0)
           baking_oven _ TimerNotSetException).
  vm_compute. reflexivity.
Defined.

(** X12.  An oven that is off is neither switched on nor heated by [tick]:
    the call returns normally and only the bake timer moves, as
    [Timer::tick] moves it. *)
Theorem tick_leaves_an_off_oven_off (o : Oven.t) (d : Z) :
  Oven.on o = false ->
  Oven.tick d o
  = (Normal tt, Oven.set_bakingTimer (snd (Timer.tick d (Oven.bakingTimer o))) o)
  /\ Oven.isOn (snd (Oven.tick d o)) = false
  /\ Oven.getTemperature (snd (Oven.tick d o)) = Oven.getTemperature o.
Proof.
  intros Hoff. rewrite (oven_tick_off o d Hoff). cbn [snd].
  split; [reflexivity |]. split; [exact Hoff | reflexivity].
Qed.

Lemma tick_leaves_an_off_oven_off_witness :
  Oven.isOn (snd (Oven.tick 600 Oven.default)) = false
  /\ Oven.getTemperature (snd (Oven.tick 600 Oven.default)) = Double.zero.
Proof.
  destruct (tick_leaves_an_off_oven_off Oven.default 600 eq_refl)
    as (_ & H1 & H2).
  split; [exact H1 | exact H2].
Defined.

(** X13.  A bake timer that has finished stays finished until it is started
    again, and [tick] switches the oven off whenever it finds the timer
    finished: on an oven with a finished timer and the door closed, a valid
    [preheat] followed by one [tick] of a positive delta leaves the oven off
    at 0.0. *)
Theorem stale_timer_switches_the_oven_off
  (o : Oven.t) (tg : double) (w d : Z) :
  Timer.isFinished (Oven.bakingTimer o) = true ->
  Oven.doorClosed o = true ->
  Double.leb tg Double.zero = false ->
  Double.gtb tg (Double.of_int 300) = false ->
  0 < w -> 0 < d ->
  exists o',
    (Oven.preheat tg w ;; Oven.tick d) o = (Normal tt, o')
    /\ Oven.isOn o' = false
    /\ Oven.getTemperature o' = Double.zero
    /\ Oven.bakingTimer o' = Oven.bakingTimer o.
Proof.
  intros Hfin Hdoor Hlow Hhigh Hw Hd.
  unfold bind, Oven.preheat. rewrite Hlow, Hhigh. cbn [orb].
  run_method. rewrite Hdoor. cbn [negb].
  replace (w <=? 0) with false by (symmetry; apply Z.leb_gt; lia).
  unfold TemperatureProfile.reset, modify. oven_fields.
  rewrite oven_tick_on by (exact Hd || reflexivity).
  cbn [Oven.bakingTimer]. cbv zeta.
  rewrite tick_not_running by (apply isFinished_not_running; exact Hfin).
  cbn [snd]. rewrite Hfin.
  eexists. split; [reflexivity |]. repeat split.
Qed.

Lemma stale_timer_switches_the_oven_off_witness :
  exists o',
    (Oven.preheat (Double.of_int 200) 5 ;; Oven.tick 1)
      (snd (Oven.step (Oven.Tick 60) baking_oven)) = (Normal tt, o')
    /\ Oven.isOn o' = false
    /\ Oven.getTemperature o' = Double.zero
    /\ Oven.bakingTimer o'
       = Oven.bakingTimer (snd (Oven.step (Oven.Tick 60) baking_oven)).
Proof.
  apply (stale_timer_switches_the_oven_off
           (snd (Oven.step (Oven.Tick 60) baking_oven)) (Double.of_int 200) 5 1);
    (vm_compute; reflexivity) || lia.
Defined.

(** The oven right after a valid [preheat]. *)
Lemma preheat_accepts (o : Oven.t) (tg : double) (w : Z) :
  Oven.doorClosed o = true ->
  Double.leb tg Double.zero = false ->
  Double.gtb tg (Double.of_int 300) = false ->
  0 < w ->
  Oven.preheat tg w o
  = (Normal tt,
     Oven.mk (Oven.temperature o) true true (Oven.bakingTimer o)
       (TemperatureProfile.mk (Oven.temperature o) tg (Int32.mul w 60)
          (TemperatureProfile.gradual (Oven.profile o)))
       0).
Proof.
  intros Hdoor Hlow Hhigh Hw.
  unfold Oven.preheat. rewrite Hlow, Hhigh. cbn [orb].
  run_method. rewrite Hdoor. cbn [negb].
  replace (w <=? 0) with false by (symmetry; apply Z.leb_gt; lia).
  unfold TemperatureProfile.reset, modify. oven_fields. rewrite Hdoor.
  reflexivity.
Qed.

(** X14.  Warm-ups compose: on an oven with the door closed whose bake
    timer is neither running nor finished, [preheat(t1, w1)], a [tick] of
    the whole warm-up [w1 * 60] and [preheat(t2, w2)] leave the oven on at
    exactly [t1], with a profile that starts from [t1] and aims at [t2]. *)
Theorem preheats_compose (o : Oven.t) (t1 t2 : double) (w1 w2 : Z) :
  Oven.doorClosed o = true ->
  Timer.running (Oven.bakingTimer o) = false ->
  Timer.isFinished (Oven.bakingTimer o) = false ->
  Double.leb t1 Double.zero = false ->
  Double.gtb t1 (Double.of_int 300) = false ->
  Double.leb t2 Double.zero = false ->
  Double.gtb t2 (Double.of_int 300) = false ->
  0 < w1 -> w1 * 60 <= Int32.INT_MAX -> 0 < w2 ->
  (Oven.preheat t1 w1 ;; Oven.tick (w1 * 60) ;; Oven.preheat t2 w2) o
  = (Normal tt,
     Oven.mk t1 true true (Oven.bakingTimer o)
       (TemperatureProfile.mk t1 t2 (Int32.mul w2 60)
          (TemperatureProfile.gradual (Oven.profile o)))
       0).
Proof.
  intros Hdoor Hidle Hnotfin Hl1 Hh1 Hl2 Hh2 Hw1 Hmax Hw2.
  assert (Int32.mul w1 60 = w1 * 60) as Hmul
    by (apply wrap_in_range;
        unfold Int32.in_range, Int32.INT_MIN, Int32.INT_MAX in *; lia).
  assert (Int32.add 0 (w1 * 60) = w1 * 60) as Hadd
    by (apply wrap_in_range;
        unfold Int32.in_range, Int32.INT_MIN, Int32.INT_MAX in *; lia).
  unfold bind at 1. rewrite (preheat_accepts o t1 w1 Hdoor Hl1 Hh1 Hw1).
  unfold bind at 1. rewrite oven_tick_on by (lia || reflexivity).
  cbn [Oven.bakingTimer Oven.elapsedSeconds Oven.profile Oven.doorClosed].
  cbv zeta. rewrite (tick_not_running _ _ Hidle). cbn [snd]. rewrite Hnotfin.
  rewrite Hmul, Hadd.
  assert (TemperatureProfile.currentTemp
            (TemperatureProfile.mk (Oven.temperature o) t1 (w1 * 60)
               (TemperatureProfile.gradual (Oven.profile o))) (w1 * 60) = t1)
    as Htemp.
  { unfold TemperatureProfile.currentTemp.
    cbn [TemperatureProfile.duration TemperatureProfile.gradual
         TemperatureProfile.targetTemp].
    rewrite Z.leb_refl, orb_true_r. reflexivity. }
  rewrite Htemp.
  rewrite preheat_accepts by (reflexivity || assumption).
  reflexivity.
Qed.

Lemma preheats_compose_witness :
  (Oven.preheat (Double.of_int 180) 10 ;; Oven.tick (10 * 60) ;;
   Oven.preheat (Double.of_int 220) 5) Oven.default
  = (Normal tt,
     Oven.mk (Double.of_int 180) true true Timer.default
       (TemperatureProfile.mk (Double.of_int 180) (Double.of_int 220) 300 true)
       0).
Proof.
  rewrite (preheats_compose Oven.default (Double.of_int 180) (Double.of_int 220)
             10 5);
    (reflexivity || (unfold Int32.INT_MAX; lia)).
Defined.

(** ** The baking loop and cookBakedMeat *)

Lemma on_oven_run {A} (m : M Oven.t A) (ing : list Ingredient.t)
  (ovs : list Oven.t) (a : nat) (o o' : Oven.t) (r : completion A) :
  nth_error ovs a = Some o ->
  m o = (r, o') ->
  Bakery.on_oven (Some a) m (Bakery.mk ing ovs)
  = (r, Bakery.mk ing (Store.write a o' ovs)).
Proof.
  intros Hat Hm. unfold Bakery.on_oven, Bakery.deref.
  cbn [Bakery.ovens]. rewrite Hat, Hm. reflexivity.
Qed.

Section BakeLoop.

Variables (T d i : Z) (a : nat) (door : bool) (prof : TemperatureProfile.t).
Hypothesis d_pos : 0 < d.
(** [elapsed += delta] and [cookedSeconds += step] stay inside [int]. *)
Hypothesis no_overflow : T + d - 1 <= Int32.INT_MAX.

Lemma oven_tick_baking (e : Z) (tmp : double) :
  0 <= e < T ->
  Oven.tick d (baking T i door prof e tmp)
  = (Normal tt,
     if T <=? e + d then baked T i door prof (e + d)
     else baking T i door prof (e + d)
            (TemperatureProfile.currentTemp prof (e + d))).
Proof.
  intros He. unfold baking, baked.
  rewrite oven_tick_on by (exact d_pos || reflexivity).
  cbn [Oven.bakingTimer Oven.elapsedSeconds Oven.profile Oven.doorClosed].
  cbv zeta. rewrite (tick_running T d i d_pos no_overflow e He). cbn [snd].
  assert (Int32.add e d = e + d) as ->
    by (apply wrap_in_range;
        unfold Int32.in_range, Int32.INT_MIN, Int32.INT_MAX in *; lia).
  destruct (Z.leb_spec T (e + d)) as [Hdone | Hmore].
  - unfold Timer.isFinished.
    cbn [Timer.running Timer.seconds Timer.elapsed negb andb].
    rewrite Z.leb_refl.
    replace (0 <? T) with true by (symmetry; apply Z.ltb_lt; lia).
    reflexivity.
  - reflexivity.
Qed.

(** One pass through the body of the loop. *)
Lemma bakeLoop_pass (fuel : nat) (ing : list Ingredient.t) (ovs : list Oven.t)
  (e : Z) (tmp : double) (cookedSeconds : Z) :
  nth_error ovs a = Some (baking T i door prof e tmp) ->
  0 <= e < T ->
  0 <= cookedSeconds -> cookedSeconds + d <= Int32.INT_MAX ->
  bakeLoop (S fuel) (Some a) d cookedSeconds (Bakery.mk ing ovs)
  = if T <=? e + d then
      (Normal (cookedSeconds + d),
       Bakery.mk ing (Store.write a (baked T i door prof (e + d)) ovs))
    else
      bakeLoop fuel (Some a) d (cookedSeconds + d)
        (Bakery.mk ing
           (Store.write a
              (baking T i door prof (e + d)
                 (TemperatureProfile.currentTemp prof (e + d))) ovs)).
Proof.
  intros Hat He Hcs Hmax.
  cbn [bakeLoop]. unfold bind at 1.
  rewrite (on_oven_run _ ing ovs a _ _ _ Hat (oven_tick_baking e tmp He)).
  assert (Int32.add cookedSeconds d = cookedSeconds + d) as Hadd
    by (apply wrap_in_range;
        unfold Int32.in_range, Int32.INT_MIN, Int32.INT_MAX in *; lia).
  cbv zeta. rewrite Hadd. unfold bind at 1.
  destruct (Z.leb_spec T (e + d)) as [Hdone | Hmore].
  - rewrite (on_oven_run (reads Oven.isOn) ing _ a
               (baked T i door prof (e + d)) _ _
               (nth_error_write _ _ _ _ Hat) eq_refl).
    rewrite write_write. reflexivity.
  - rewrite (on_oven_run (reads Oven.isOn) ing _ a
               (baking T i door prof (e + d)
                  (TemperatureProfile.currentTemp prof (e + d)))
               _ _ (nth_error_write _ _ _ _ Hat) eq_refl).
    rewrite write_write. reflexivity.
Qed.

(** The loop entered with the oven baking [e] seconds in: it is cut when
    the fuel is below the passes still to make, and otherwise ends with the
    oven off. *)
Lemma bakeLoop_from (fuel : nat) :
  forall (ing : list Ingredient.t) (ovs : list Oven.t) (e : Z) (tmp : double)
         (cookedSeconds : Z),
    nth_error ovs a = Some (baking T i door prof e tmp) ->
    0 <= e < T ->
    0 <= cookedSeconds -> cookedSeconds + (T - e) + d - 1 <= Int32.INT_MAX ->
    ((fuel < Z.to_nat (ceil_div (T - e) d))%nat
     /\ fst (bakeLoop fuel (Some a) d cookedSeconds (Bakery.mk ing ovs))
        = OutOfFuel)
    \/ ((Z.to_nat (ceil_div (T - e) d) <= fuel)%nat
        /\ bakeLoop fuel (Some a) d cookedSeconds (Bakery.mk ing ovs)
           = (Normal (cookedSeconds + ceil_div (T - e) d * d),
              Bakery.mk ing
                (Store.write a
                   (baked T i door prof (e + ceil_div (T - e) d * d)) ovs))).
Proof.
  induction fuel as [| fuel IH]; intros ing ovs e tmp cs Hat He Hcs Hmax.
  - left. pose proof (ceil_div_pos d d_pos (T - e) ltac:(lia)).
    split; [lia | reflexivity].
  - rewrite (bakeLoop_pass fuel ing ovs e tmp cs Hat He Hcs) by lia.
    destruct (Z.leb_spec T (e + d)) as [Hdone | Hmore].
    + rewrite (ceil_div_last d (T - e)) by lia.
      right. split; [lia |]. rewrite Z.mul_1_l. reflexivity.
    + pose proof (ceil_div_step d d_pos (T - e)) as Hstep.
      pose proof (ceil_div_pos d d_pos (T - e - d) ltac:(lia)) as Hpos.
      replace (T - e - d) with (T - (e + d)) in Hstep, Hpos by lia.
      destruct (IH ing
                  (Store.write a
                     (baking T i door prof (e + d)
                        (TemperatureProfile.currentTemp prof (e + d))) ovs)
                  (e + d) (TemperatureProfile.currentTemp prof (e + d)) (cs + d))
        as [[Hlt Hcut] | [Hge Hrun]].
      * eapply nth_error_write. exact Hat.
      * lia.
      * lia.
      * lia.
      * left. split; [lia | exact Hcut].
      * right. split; [lia |]. rewrite Hrun. rewrite write_write.
        rewrite Hstep. f_equal; [f_equal; lia |].
        f_equal. f_equal. f_equal. lia.
Qed.

End BakeLoop.

Lemma setTimerMinutes_accepts (o : Oven.t) (m : Z) :
  0 < m -> m * 60 <= Int32.INT_MAX ->
  Oven.setTimerMinutes m o
  = (Normal tt,
     Oven.set_bakingTimer
       (Timer.mk (m * 60) true 0 (Timer.id (Oven.bakingTimer o))) o).
Proof.
  intros Hm Hmax. unfold Oven.setTimerMinutes.
  replace (m <=? 0) with false by (symmetry; apply Z.leb_gt; lia).
  assert (Int32.mul m 60 = m * 60) as ->
    by (apply wrap_in_range;
        unfold Int32.in_range, Int32.INT_MIN, Int32.INT_MAX in *; lia).
  unfold zoom, Timer.start.
  replace (m * 60 <=? 0) with false by (symmetry; apply Z.leb_gt; lia).
  reflexivity.
Qed.

(** The three calls that arm the oven leave it baking, zero seconds in. *)
Lemma bake_cycle_arm {A} (k : M Bakery.t A) (ing : list Ingredient.t)
  (ovs : list Oven.t) (a : nat) (o : Oven.t) (tg : double) (w m : Z) :
  nth_error ovs a = Some o ->
  Double.leb tg Double.zero = false ->
  Double.gtb tg (Double.of_int 300) = false ->
  0 < w -> 0 < m -> m * 60 <= Int32.INT_MAX ->
  (Bakery.on_oven (Some a) Oven.closeDoor ;;
   Bakery.on_oven (Some a) (Oven.preheat tg w) ;;
   Bakery.on_oven (Some a) (Oven.setTimerMinutes m) ;;
   k) (Bakery.mk ing ovs)
  = k (Bakery.mk ing
         (Store.write a
            (baking (m * 60) (Timer.id (Oven.bakingTimer o)) true
               (TemperatureProfile.mk (Oven.temperature o) tg (Int32.mul w 60)
                  (TemperatureProfile.gradual (Oven.profile o)))
               0 (Oven.temperature o))
            ovs)).
Proof.
  intros Hat Hlow Hhigh Hw Hm Hmax.
  unfold bind at 1.
  rewrite (on_oven_run Oven.closeDoor ing ovs a o _ _ Hat eq_refl).
  unfold bind at 1.
  rewrite (on_oven_run (Oven.preheat tg w) ing _ a _ _ _
             (nth_error_write _ _ _ _ Hat)
             (preheat_accepts (Oven.set_doorClosed true o) tg w eq_refl
                Hlow Hhigh Hw)).
  rewrite write_write. unfold bind at 1.
  rewrite (on_oven_run (Oven.setTimerMinutes m) ing _ a _ _ _
             (nth_error_write _ _ _ _ Hat)
             (setTimerMinutes_accepts _ m Hm Hmax)).
  rewrite write_write. reflexivity.
Qed.

(** The three calls that arm the oven, then the loop: either the fuel is
    short of the passes to make, or the run ends with the oven off. *)
Lemma bake_cycle_outcome (fuel : nat) (ing : list Ingredient.t)
  (ovs : list Oven.t) (a : nat) (o : Oven.t) (tg : double) (w m d : Z) :
  nth_error ovs a = Some o ->
  Double.leb tg Double.zero = false ->
  Double.gtb tg (Double.of_int 300) = false ->
  0 < w -> 0 < m -> 0 < d -> m * 60 + d - 1 <= Int32.INT_MAX ->
  let run :=
    (Bakery.on_oven (Some a) Oven.closeDoor ;;
     Bakery.on_oven (Some a) (Oven.preheat tg w) ;;
     Bakery.on_oven (Some a) (Oven.setTimerMinutes m) ;;
     bakeLoop fuel (Some a) d 0) (Bakery.mk ing ovs) in
  ((fuel < Z.to_nat (ceil_div (m * 60) d))%nat /\ fst run = OutOfFuel)
  \/ ((Z.to_nat (ceil_div (m * 60) d) <= fuel)%nat
      /\ run
         = (Normal (ceil_div (m * 60) d * d),
            Bakery.mk ing
              (Store.write a
                 (baked (m * 60) (Timer.id (Oven.bakingTimer o)) true
                    (TemperatureProfile.mk (Oven.temperature o) tg
                       (Int32.mul w 60)
                       (TemperatureProfile.gradual (Oven.profile o)))
                    (ceil_div (m * 60) d * d))
                 ovs))).
Proof.
  intros Hat Hlow Hhigh Hw Hm Hd Hmax run. subst run.
  rewrite (bake_cycle_arm _ ing ovs a o tg w m Hat Hlow Hhigh Hw Hm
             ltac:(lia)).
  pose proof (bakeLoop_from (m * 60) d (Timer.id (Oven.bakingTimer o)) a true
                (TemperatureProfile.mk (Oven.temperature o) tg (Int32.mul w 60)
                   (TemperatureProfile.gradual (Oven.profile o)))
                Hd Hmax fuel ing
                (Store.write a
                   (baking (m * 60) (Timer.id (Oven.bakingTimer o)) true
                      (TemperatureProfile.mk (Oven.temperature o) tg
                         (Int32.mul w 60)
                         (TemperatureProfile.gradual (Oven.profile o)))
                      0 (Oven.temperature o)) ovs)
                0 (Oven.temperature o) 0
                (nth_error_write _ _ _ _ Hat)
                ltac:(lia) ltac:(lia) ltac:(lia)) as Hloop.
  rewrite Z.sub_0_r, !Z.add_0_l, write_write in Hloop.
  exact Hloop.
Qed.

(** X15.  The bake cycle of [Cook]: on any oven, for a valid target, a
    positive warm-up, [m > 0] minutes and a step [d > 0] with
    [60 m + d - 1 <= INT_MAX], the calls [closeDoor], [preheat],
    [setTimerMinutes(m)] and the loop of [tick(d)] end after exactly
    [ceil(60 m / d)] passes: [cookedSeconds] is that many steps, and the
    oven is left off at 0.0 with the door closed and the timer finished. *)
Theorem bake_cycle_ends (fuel : nat) (ing : list Ingredient.t)
  (ovs : list Oven.t) (a : nat) (o : Oven.t) (tg : double) (w m d : Z) :
  nth_error ovs a = Some o ->
  Double.leb tg Double.zero = false ->
  Double.gtb tg (Double.of_int 300) = false ->
  0 < w -> 0 < m -> 0 < d -> m * 60 + d - 1 <= Int32.INT_MAX ->
  (Z.to_nat (ceil_div (m * 60) d) <= fuel)%nat ->
  (Bakery.on_oven (Some a) Oven.closeDoor ;;
   Bakery.on_oven (Some a) (Oven.preheat tg w) ;;
   Bakery.on_oven (Some a) (Oven.setTimerMinutes m) ;;
   bakeLoop fuel (Some a) d 0) (Bakery.mk ing ovs)
  = (Normal (ceil_div (m * 60) d * d),
     Bakery.mk ing
       (Store.write a
          (baked (m * 60) (Timer.id (Oven.bakingTimer o)) true
             (TemperatureProfile.mk (Oven.temperature o) tg (Int32.mul w 60)
                (TemperatureProfile.gradual (Oven.profile o)))
             (ceil_div (m * 60) d * d))
          ovs)).
Proof.
  intros Hat Hlow Hhigh Hw Hm Hd Hmax Hfuel.
  destruct (bake_cycle_outcome fuel ing ovs a o tg w m d
              Hat Hlow Hhigh Hw Hm Hd Hmax) as [[Hlt _] | [_ Hrun]];
    [lia | exact Hrun].
Qed.

Lemma bake_cycle_ends_witness :
  (Bakery.on_oven (Some 0%nat) Oven.closeDoor ;;
   Bakery.on_oven (Some 0%nat) (Oven.preheat (Double.of_int 190) 10) ;;
   Bakery.on_oven (Some 0%nat) (Oven.setTimerMinutes 15) ;;
   bakeLoop 5 (Some 0%nat) 180 0) (Bakery.mk [] [Oven.default])
  = (Normal 900,
     Bakery.mk []
       [baked 900 0 true
          (TemperatureProfile.mk Double.zero (Double.of_int 190) 600 true) 900]).
Proof.
  rewrite (bake_cycle_ends 5 [] [Oven.default] 0 Oven.default
             (Double.of_int 190) 10 15 180);
    (reflexivity || (unfold Int32.INT_MAX; cbn; lia)).
Defined.


Lemma on_ingredient_run {A} (m : M Ingredient.t A) (ing : list Ingredient.t)
  (ovs : list Oven.t) (b : nat) (x x' : Ingredient.t) (r : completion A) :
  nth_error ing b = Some x ->
  m x = (r, x') ->
  Bakery.on_ingredient (Some b) m (Bakery.mk ing ovs)
  = (r, Bakery.mk (Store.write b x' ing) ovs).
Proof.
  intros Hat Hm. unfold Bakery.on_ingredient, Bakery.deref.
  cbn [Bakery.ingredients]. rewrite Hat, Hm. reflexivity.
Qed.

(** What is left of [cookBakedMeat] once the meat is taken and the oven
    pointer is good: the run is cut for lack of fuel or returns normally. *)
Lemma cookBakedMeat_bake (fuel : nat) (ing : list Ingredient.t)
  (ovs : list Oven.t) (a : nat) (o : Oven.t) :
  nth_error ovs a = Some o ->
  let run :=
    (Bakery.on_oven (Some a) Oven.closeDoor ;;
     Bakery.on_oven (Some a) (Oven.preheat (Double.of_int 180) 10) ;;
     Bakery.on_oven (Some a) (Oven.setTimerMinutes 30) ;;
     cookedSeconds <- bakeLoop fuel (Some a) 300 0 ;;
     let cookedMinutes := Int32.div cookedSeconds 60 in
     let expectedMinutes := 30 in
     if Int32.add expectedMinutes 5 <? cookedMinutes then
       throw OvercookedDishException
     else if cookedMinutes <? Int32.sub expectedMinutes 5 then
       throw UndercookedDishException
     else ret tt) (Bakery.mk ing ovs) in
  ((fuel < 6)%nat /\ fst run = OutOfFuel)
  \/ ((6 <= fuel)%nat
      /\ run
         = (Normal tt,
            Bakery.mk ing
              (Store.write a
                 (baked 1800 (Timer.id (Oven.bakingTimer o)) true
                    (TemperatureProfile.mk (Oven.temperature o)
                       (Double.of_int 180) 600
                       (TemperatureProfile.gradual (Oven.profile o)))
                    1800)
                 ovs))).
Proof.
  intros Hat run. subst run.
  rewrite (bake_cycle_arm _ ing ovs a o (Double.of_int 180) 10 30 Hat
             eq_refl eq_refl ltac:(lia) ltac:(lia)
             ltac:(unfold Int32.INT_MAX; lia)).
  pose proof (bakeLoop_from (30 * 60) 300 (Timer.id (Oven.bakingTimer o)) a true
                (TemperatureProfile.mk (Oven.temperature o) (Double.of_int 180)
                   (Int32.mul 10 60)
                   (TemperatureProfile.gradual (Oven.profile o)))
                ltac:(lia) ltac:(unfold Int32.INT_MAX; lia) fuel ing
                (Store.write a
                   (baking (30 * 60) (Timer.id (Oven.bakingTimer o)) true
                      (TemperatureProfile.mk (Oven.temperature o)
                         (Double.of_int 180) (Int32.mul 10 60)
                         (TemperatureProfile.gradual (Oven.profile o)))
                      0 (Oven.temperature o)) ovs)
                0 (Oven.temperature o) 0
                (nth_error_write _ _ _ _ Hat)
                ltac:(lia) ltac:(lia) ltac:(unfold Int32.INT_MAX; lia)) as Hloop.
  rewrite write_write in Hloop.
  change (ceil_div (30 * 60 - 0) 300) with 6 in Hloop.
  change (Z.to_nat 6) with 6%nat in Hloop.
  change (0 + 6 * 300) with 1800 in Hloop.
  change (Int32.mul 10 60) with 600 in *.
  change (30 * 60) with 1800 in *.
  destruct Hloop as [[Hlt Hcut] | [Hge Hrun]].
  - left. split; [exact Hlt |]. unfold bind.
    destruct (bakeLoop fuel (Some a) 300 0 _) as [r st']. cbn [fst] in Hcut.
    subst r. reflexivity.
  - right. split; [exact Hge |]. unfold bind. rewrite Hrun. reflexivity.
Qed.

(** X16.  [cookBakedMeat] with a stock that yields its 200 g and any oven:
    the call returns normally after six ticks of 300 s; the stock is what
    [useAmount(200)] left, and the oven is off at 0.0 with the door closed,
    the 30-minute timer finished, and the profile that [preheat(180)] set
    from the temperature the oven had. *)
Theorem cookBakedMeat_succeeds (fuel : nat) (dish : BakedMeatDish.t)
  (ing : list Ingredient.t) (ovs : list Oven.t) (a b : nat)
  (o : Oven.t) (mt mt' : Ingredient.t) :
  BakedMeatDish.oven dish = Some a ->
  BakedMeatDish.meat dish = Some b ->
  nth_error ovs a = Some o ->
  nth_error ing b = Some mt ->
  Ingredient.useAmount (Double.of_int 200) mt = (Normal tt, mt') ->
  (6 <= fuel)%nat ->
  cookBakedMeat fuel dish (Bakery.mk ing ovs)
  = (Normal tt,
     Bakery.mk (Store.write b mt' ing)
       (Store.write a
          (baked 1800 (Timer.id (Oven.bakingTimer o)) true
             (TemperatureProfile.mk (Oven.temperature o) (Double.of_int 180)
                600 (TemperatureProfile.gradual (Oven.profile o)))
             1800)
          ovs)).
Proof.
  intros Hoven Hmeat Hato Hatm Huse Hfuel.
  unfold cookBakedMeat. rewrite Hoven, Hmeat. cbn [Store.is_null].
  unfold bind at 1.
  rewrite (on_ingredient_run _ ing ovs b mt mt' _ Hatm Huse).
  destruct (cookBakedMeat_bake fuel (Store.write b mt' ing) ovs a o Hato)
    as [[Hlt _] | [_ Hrun]]; [lia | exact Hrun].
Qed.

Lemma cookBakedMeat_succeeds_witness :
  cookBakedMeat 6
    (BakedMeatDish.mk "Baked meat" (Some 0%nat) (Some 0%nat) (Some (Cook.mk "chef")))
    (Bakery.mk [makeIngredient "meat" (Double.of_int 1000)] [Oven.default])
  = (Normal tt,
     Bakery.mk [makeIngredient "meat" (Double.of_int 800)]
       [baked 1800 0 true
          (TemperatureProfile.mk Double.zero (Double.of_int 180) 600 true)
          1800]).
Proof.
  rewrite (cookBakedMeat_succeeds 6
             (BakedMeatDish.mk "Baked meat" (Some 0%nat) (Some 0%nat)
                (Some (Cook.mk "chef")))
             [makeIngredient "meat" (Double.of_int 1000)] [Oven.default]
             0 0 Oven.default (makeIngredient "meat" (Double.of_int 1000))
             (makeIngredient "meat" (Double.of_int 800)));
    (reflexivity || (vm_compute; reflexivity) || lia).
Defined.





(** ** cookChickenSoup: what is done is not undone *)

Section SoupStore.

Variables (ing : list Ingredient.t) (pots : list Pot.t)
  (stoves : list Stove.t) (timers : list Timer.t).

Lemma soup_on_ingredient {A} (m : M Ingredient.t A) (i : nat)
  (x x' : Ingredient.t) (r : completion A) :
  nth_error ing i = Some x -> m x = (r, x') ->
  Store.on_ingredient (Some i) m (Store.mk ing pots stoves timers)
  = (r, Store.mk (Store.write i x' ing) pots stoves timers).
Proof.
  intros Hat Hm. unfold Store.on_ingredient, Store.deref.
  cbn [Store.ingredients]. rewrite Hat, Hm. reflexivity.
Qed.

Lemma soup_on_pot {A} (m : M Pot.t A) (i : nat) (x x' : Pot.t)
  (r : completion A) :
  nth_error pots i = Some x -> m x = (r, x') ->
  Store.on_pot (Some i) m (Store.mk ing pots stoves timers)
  = (r, Store.mk ing (Store.write i x' pots) stoves timers).
Proof.
  intros Hat Hm. unfold Store.on_pot, Store.deref.
  cbn [Store.pots]. rewrite Hat, Hm. reflexivity.
Qed.

Lemma soup_on_stove {A} (m : M Stove.t A) (i : nat) (x x' : Stove.t)
  (r : completion A) :
  nth_error stoves i = Some x -> m x = (r, x') ->
  Store.on_stove (Some i) m (Store.mk ing pots stoves timers)
  = (r, Store.mk ing pots (Store.write i x' stoves) timers).
Proof.
  intros Hat Hm. unfold Store.on_stove, Store.deref.
  cbn [Store.stoves]. rewrite Hat, Hm. reflexivity.
Qed.

End SoupStore.

Lemma stove_step_returns (c : stove_call) (s : Stove.t) :
  stove_step c s = (Normal tt, snd (stove_step c s)).
Proof.
  destruct c; cbn [stove_step].
  - unfold Stove.turnOnBurner. run_method.
    destruct (_ <? _); reflexivity.
  - unfold Stove.turnOffBurner. run_method.
    destruct (0 <? _); [| reflexivity].
    cbn [Stove.activeBurners]. destruct (_ =? 0); reflexivity.
Qed.

Lemma useAmount_throw_unchanged (v : double) (i i' : Ingredient.t) (e : exn) :
  Ingredient.useAmount v i = (Throw e, i') -> i' = i.
Proof.
  unfold Ingredient.useAmount, bind, const_call.
  destruct (Quantity.toGrams (Ingredient.quantity i)) as [g | e0 | |];
    try (intros [= _ <-]; reflexivity).
  destruct (Double.gtb v g); [intros [= _ <-]; reflexivity |].
  destruct (Double.gtb g Double.zero); discriminate.
Qed.

(** [cookChickenSoup] up to the second [useAmount], on a pot that is large
    enough and a chicken stock that yields its 150 g. *)
Lemma cookChickenSoup_after_chicken
  (fuel : nat) (dish : ChickenSoupDish.t)
  (ing : list Ingredient.t) (pots : list Pot.t) (stoves : list Stove.t)
  (timers : list Timer.t) (ic ip : nat) (c c' : Ingredient.t) (p : Pot.t) :
  ChickenSoupDish.chicken dish = Some ic ->
  ChickenSoupDish.use_pot dish = Some ip ->
  Store.is_null (ChickenSoupDish.use_stove dish) = false ->
  Store.is_null (ChickenSoupDish.use_boilTimer dish) = false ->
  nth_error ing ic = Some c -> nth_error pots ip = Some p ->
  Pot.canBoil p (Double.lit 3 (-1)) = true ->
  Ingredient.useAmount (Double.of_int 150) c = (Normal tt, c') ->
  cookChickenSoup fuel dish (Store.mk ing pots stoves timers)
  = (Store.on_ingredient (ChickenSoupDish.veggies dish)
       (Ingredient.useAmount (Double.of_int 100)) ;;
     Store.on_stove (ChickenSoupDish.use_stove dish) Stove.turnOnBurner ;;
     Store.on_pot (Some ip) Pot.startBoil ;;
     Store.on_timer (ChickenSoupDish.use_boilTimer dish)
       (Timer.start (Int32.mul 30 60)) ;;
     waitLoop fuel (ChickenSoupDish.use_boilTimer dish) (Int32.mul 5 60) ;;
     Store.on_stove (ChickenSoupDish.use_stove dish) Stove.turnOffBurner ;;
     Store.on_pot (Some ip) Pot.stopBoil)
      (Store.mk (Store.write ic c' ing) pots stoves timers).
Proof.
  intros Hc Hp Hs Ht Hatc Hatp Hfits Huse.
  unfold cookChickenSoup. rewrite Hp, Hs, Ht. cbn [Store.is_null].
  unfold bind at 1.
  rewrite (soup_on_pot ing pots stoves timers
             (reads (fun p => Pot.canBoil p (Double.lit 3 (-1))))
             ip p p _ Hatp eq_refl).
  rewrite (write_same _ _ _ Hatp). rewrite Hfits. cbn [negb].
  rewrite Hc. unfold bind at 1.
  rewrite (soup_on_ingredient ing pots stoves timers _ ic c c' _ Hatc Huse).
  reflexivity.
Qed.

Lemma startBoil_unusable (p : Pot.t) :
  KitchenTool.isAvailable (Pot.base p) = false ->
  Pot.startBoil p = (Throw ToolNotAvailableException, p).
Proof. intros H. unfold Pot.startBoil. run_method. rewrite H. reflexivity. Qed.

Lemma startBoil_usable (p : Pot.t) :
  KitchenTool.isAvailable (Pot.base p) = true ->
  KitchenTool.durability (Pot.base p) <= Int32.INT_MAX ->
  Pot.startBoil p
  = (Normal tt,
     Pot.mk (KitchenTool.mk (KitchenTool.name (Pot.base p)) true
               (1 <? KitchenTool.durability (Pot.base p)) false
               (KitchenTool.durability (Pot.base p) - 1))
       (Pot.volume p) (Pot.hasLid p) true).
Proof.
  intros Hav Hmax. unfold Pot.startBoil. run_method. rewrite Hav.
  cbn [negb]. rewrite (useTool_available _ Hav Hmax). reflexivity.
Qed.

(** X18.  Consumption is not rolled back: when the pot is large enough and
    the chicken stock yields its 150 g but [useAmount(100)] on the vegetable
    stock, as that stock is after the chicken was taken, throws, then
    [cookChickenSoup] ends in that exception with the chicken stock reduced
    and nothing else changed.  The two pointers may name the same stock. *)
Theorem cookChickenSoup_keeps_what_was_consumed
  (fuel : nat) (dish : ChickenSoupDish.t)
  (ing : list Ingredient.t) (pots : list Pot.t) (stoves : list Stove.t)
  (timers : list Timer.t) (ic iv ip : nat)
  (c c' v v' : Ingredient.t) (p : Pot.t) (e : exn) :
  ChickenSoupDish.chicken dish = Some ic ->
  ChickenSoupDish.veggies dish = Some iv ->
  ChickenSoupDish.use_pot dish = Some ip ->
  Store.is_null (ChickenSoupDish.use_stove dish) = false ->
  Store.is_null (ChickenSoupDish.use_boilTimer dish) = false ->
  nth_error ing ic = Some c -> nth_error pots ip = Some p ->
  Pot.canBoil p (Double.lit 3 (-1)) = true ->
  Ingredient.useAmount (Double.of_int 150) c = (Normal tt, c') ->
  nth_error (Store.write ic c' ing) iv = Some v ->
  Ingredient.useAmount (Double.of_int 100) v = (Throw e, v') ->
  cookChickenSoup fuel dish (Store.mk ing pots stoves timers)
  = (Throw e, Store.mk (Store.write ic c' ing) pots stoves timers).
Proof.
  intros Hc Hv Hp Hs Ht Hatc Hatp Hfits Huse Hatv Hrefuse.
  rewrite (cookChickenSoup_after_chicken fuel dish ing pots stoves timers
             ic ip c c' p Hc Hp Hs Ht Hatc Hatp Hfits Huse).
  rewrite Hv. unfold bind at 1.
  rewrite (soup_on_ingredient _ pots stoves timers _ iv v v' _ Hatv Hrefuse).
  rewrite (useAmount_throw_unchanged _ _ _ _ Hrefuse).
  rewrite (write_same _ _ _ Hatv). reflexivity.
Qed.

Lemma cookChickenSoup_keeps_what_was_consumed_witness :
  cookChickenSoup 7 soup
    (Store.mk [makeIngredient "chicken" (Double.of_int 1000);
               makeIngredient "veg" (Double.of_int 50)]
       [Pot.new "pot" (Double.of_int 3) true false]
       [Stove.mk 4 0 true false] [Timer.default])
  = (Throw NotEnoughIngredientException,
     Store.mk [makeIngredient "chicken" (Double.of_int 850);
               makeIngredient "veg" (Double.of_int 50)]
       [Pot.new "pot" (Double.of_int 3) true false]
       [Stove.mk 4 0 true false] [Timer.default]).
Proof.
  rewrite (cookChickenSoup_keeps_what_was_consumed 7 soup
             [makeIngredient "chicken" (Double.of_int 1000);
              makeIngredient "veg" (Double.of_int 50)]
             [Pot.new "pot" (Double.of_int 3) true false]
             [Stove.mk 4 0 true false] [Timer.default] 0 1 0
             (makeIngredient "chicken" (Double.of_int 1000))
             (makeIngredient "chicken" (Double.of_int 850))
             (makeIngredient "veg" (Double.of_int 50))
             (makeIngredient "veg" (Double.of_int 50))
             (Pot.new "pot" (Double.of_int 3) true false)
             NotEnoughIngredientException);
    (reflexivity || (vm_compute; reflexivity)).
Defined.

(** X19.  A pot that fits but is not usable is found out late: with both
    stocks sufficient and a stove behind the pointer, [cookChickenSoup]
    throws [ToolNotAvailableException] from [startBoil] after both stocks
    have been reduced and [turnOnBurner] has run; the burner is not
    switched off again, and the pot and the timers are untouched. *)
Theorem cookChickenSoup_unusable_pot_found_late
  (fuel : nat) (dish : ChickenSoupDish.t)
  (ing : list Ingredient.t) (pots : list Pot.t) (stoves : list Stove.t)
  (timers : list Timer.t) (ic iv ip js : nat)
  (c c' v v' : Ingredient.t) (p : Pot.t) (s : Stove.t) :
  ChickenSoupDish.chicken dish = Some ic ->
  ChickenSoupDish.veggies dish = Some iv ->
  ChickenSoupDish.use_pot dish = Some ip ->
  ChickenSoupDish.use_stove dish = Some js ->
  Store.is_null (ChickenSoupDish.use_boilTimer dish) = false ->
  nth_error ing ic = Some c -> nth_error pots ip = Some p ->
  nth_error stoves js = Some s ->
  Pot.canBoil p (Double.lit 3 (-1)) = true ->
  Ingredient.useAmount (Double.of_int 150) c = (Normal tt, c') ->
  nth_error (Store.write ic c' ing) iv = Some v ->
  Ingredient.useAmount (Double.of_int 100) v = (Normal tt, v') ->
  KitchenTool.isAvailable (Pot.base p) = false ->
  cookChickenSoup fuel dish (Store.mk ing pots stoves timers)
  = (Throw ToolNotAvailableException,
     Store.mk (Store.write iv v' (Store.write ic c' ing)) pots
       (Store.write js (snd (Stove.turnOnBurner s)) stoves) timers).
Proof.
  intros Hc Hv Hp Hs Ht Hatc Hatp Hats Hfits Huse Hatv Huse2 Hbad.
  rewrite (cookChickenSoup_after_chicken fuel dish ing pots stoves timers
             ic ip c c' p Hc Hp ltac:(rewrite Hs; reflexivity) Ht
             Hatc Hatp Hfits Huse).
  rewrite Hv, Hs. unfold bind at 1.
  rewrite (soup_on_ingredient _ pots stoves timers _ iv v v' _ Hatv Huse2).
  unfold bind at 1.
  rewrite (soup_on_stove _ pots stoves timers _ js s _ _ Hats
             (stove_step_returns TurnOnBurner s)).
  unfold bind at 1.
  rewrite (soup_on_pot _ pots _ timers _ ip p p _ Hatp
             (startBoil_unusable p Hbad)).
  rewrite (write_same _ _ _ Hatp). reflexivity.
Qed.

Lemma cookChickenSoup_unusable_pot_found_late_witness :
  cookChickenSoup 7 soup
    (Store.mk [makeIngredient "chicken" (Double.of_int 1000);
               makeIngredient "veg" (Double.of_int 1000)]
       [Pot.mk dirty_tool (Double.of_int 3) true false]
       [Stove.mk 4 0 true false] [Timer.default])
  = (Throw ToolNotAvailableException,
     Store.mk [makeIngredient "chicken" (Double.of_int 850);
               makeIngredient "veg" (Double.of_int 900)]
       [Pot.mk dirty_tool (Double.of_int 3) true false]
       [Stove.mk 4 1 true true] [Timer.default]).
Proof.
  rewrite (cookChickenSoup_unusable_pot_found_late 7 soup
             [makeIngredient "chicken" (Double.of_int 1000);
              makeIngredient "veg" (Double.of_int 1000)]
             [Pot.mk dirty_tool (Double.of_int 3) true false]
             [Stove.mk 4 0 true false] [Timer.default] 0 1 0 0
             (makeIngredient "chicken" (Double.of_int 1000))
             (makeIngredient "chicken" (Double.of_int 850))
             (makeIngredient "veg" (Double.of_int 1000))
             (makeIngredient "veg" (Double.of_int 900))
             (Pot.mk dirty_tool (Double.of_int 3) true false)
             (Stove.mk 4 0 true false));
    (reflexivity || (vm_compute; reflexivity)).
Defined.

(** X20.  [cookChickenSoup] when every step can be taken: a pot that fits
    and is usable, stocks that yield 150 g and 100 g, a stove and a timer
    behind their pointers, in whatever state.  The call returns normally:
    both stocks are reduced, the pot has been used once and is off the
    stove, the stove is what [turnOnBurner] then [turnOffBurner] make of it,
    and the timer is stopped at 1800 of 1800 seconds. *)
Theorem cookChickenSoup_succeeds
  (fuel : nat) (dish : ChickenSoupDish.t)
  (ing : list Ingredient.t) (pots : list Pot.t) (stoves : list Stove.t)
  (timers : list Timer.t) (ic iv ip js jt : nat)
  (c c' v v' : Ingredient.t) (p : Pot.t) (s : Stove.t) (tm : Timer.t) :
  ChickenSoupDish.chicken dish = Some ic ->
  ChickenSoupDish.veggies dish = Some iv ->
  ChickenSoupDish.use_pot dish = Some ip ->
  ChickenSoupDish.use_stove dish = Some js ->
  ChickenSoupDish.use_boilTimer dish = Some jt ->
  nth_error ing ic = Some c -> nth_error pots ip = Some p ->
  nth_error stoves js = Some s -> nth_error timers jt = Some tm ->
  Pot.canBoil p (Double.lit 3 (-1)) = true ->
  Ingredient.useAmount (Double.of_int 150) c = (Normal tt, c') ->
  nth_error (Store.write ic c' ing) iv = Some v ->
  Ingredient.useAmount (Double.of_int 100) v = (Normal tt, v') ->
  KitchenTool.isAvailable (Pot.base p) = true ->
  KitchenTool.durability (Pot.base p) <= Int32.INT_MAX ->
  (7 <= fuel)%nat ->
  cookChickenSoup fuel dish (Store.mk ing pots stoves timers)
  = (Normal tt,
     Store.mk (Store.write iv v' (Store.write ic c' ing))
       (Store.write ip
          (Pot.mk (KitchenTool.mk (KitchenTool.name (Pot.base p)) true
                     (1 <? KitchenTool.durability (Pot.base p)) false
                     (KitchenTool.durability (Pot.base p) - 1))
             (Pot.volume p) (Pot.hasLid p) false)
          pots)
       (Store.write js
          (snd (Stove.turnOffBurner (snd (Stove.turnOnBurner s)))) stoves)
       (Store.write jt (Timer.mk 1800 false 1800 (Timer.id tm)) timers)).
Proof.
  intros Hc Hv Hp Hs Ht Hatc Hatp Hats Hatt Hfits Huse Hatv Huse2 Hav Hmax Hfuel.
  rewrite (cookChickenSoup_after_chicken fuel dish ing pots stoves timers
             ic ip c c' p Hc Hp ltac:(rewrite Hs; reflexivity)
             ltac:(rewrite Ht; reflexivity) Hatc Hatp Hfits Huse).
  rewrite Hv, Hs, Ht. unfold bind at 1.
  rewrite (soup_on_ingredient _ pots stoves timers _ iv v v' _ Hatv Huse2).
  unfold bind at 1.
  rewrite (soup_on_stove _ pots stoves timers _ js s _ _ Hats
             (stove_step_returns TurnOnBurner s)).
  unfold bind at 1.
  rewrite (soup_on_pot _ pots _ timers _ ip p _ _ Hatp
             (startBoil_usable p Hav Hmax)).
  change (Int32.mul 30 60) with 1800. change (Int32.mul 5 60) with 300.
  assert (Timer.start 1800 tm = (Normal tt, Timer.mk 1800 true 0 (Timer.id tm)))
    as Hstart by reflexivity.
  match goal with
  | |- context [Store.mk ?I ?P ?S timers] =>
      set (I1 := I); set (P1 := P); set (S1 := S)
  end.
  unfold bind at 1.
  rewrite (on_timer_run (Timer.start 1800) (Store.mk I1 P1 S1 timers) jt tm
             _ _ Hatt Hstart).
  unfold bind at 1. unfold waitLoop.
  destruct (waitLoop_from 1800 300 (Timer.id tm) jt
              ltac:(lia) ltac:(lia) ltac:(unfold Int32.INT_MAX; lia) fuel
              (Store.put_timer jt (Timer.mk 1800 true 0 (Timer.id tm))
                 (Store.mk I1 P1 S1 timers))
              0 0 0
              (timers_put_timer (Store.mk I1 P1 S1 timers) jt tm _ Hatt)
              ltac:(lia)
              ltac:(change (ceil_div (1800 - 0) 300) with 6; lia))
    as [mp Hrun].
  rewrite Hrun. rewrite put_timer_put_timer.
  unfold Store.put_timer, Store.set_timers.
  cbn [Store.ingredients Store.pots Store.stoves Store.timers].
  subst I1 P1 S1.
  unfold bind at 1.
  rewrite (soup_on_stove _ _ _ _ Stove.turnOffBurner js _ _ _
             (nth_error_write _ _ _ _ Hats)
             (stove_step_returns TurnOffBurner _)).
  rewrite write_write.
  rewrite (soup_on_pot _ _ _ _ Pot.stopBoil ip _ _ _
             (nth_error_write _ _ _ _ Hatp) eq_refl).
  rewrite write_write. reflexivity.
Qed.

Lemma cookChickenSoup_succeeds_witness :
  cookChickenSoup 7 soup (soup_kitchen (Double.of_int 3))
  = (Normal tt,
     Store.mk [makeIngredient "chicken" (Double.of_int 850);
               makeIngredient "veg" (Double.of_int 900)]
       [Pot.mk (KitchenTool.mk "pot" true true false 99) (Double.of_int 3)
          true false]
       [Stove.mk 4 0 true false] [Timer.mk 1800 false 1800 0]).
Proof.
  unfold soup_kitchen.
  rewrite (cookChickenSoup_succeeds 7 soup
             [makeIngredient "chicken" (Double.of_int 1000);
              makeIngredient "veg" (Double.of_int 1000)]
             [Pot.new "pot" (Double.of_int 3) true false]
             [Stove.mk 4 0 true false] [Timer.default] 0 1 0 0 0
             (makeIngredient "chicken" (Double.of_int 1000))
             (makeIngredient "chicken" (Double.of_int 850))
             (makeIngredient "veg" (Double.of_int 1000))
             (makeIngredient "veg" (Double.of_int 900))
             (Pot.new "pot" (Double.of_int 3) true false)
             (Stove.mk 4 0 true false) Timer.default);
    (reflexivity || (vm_compute; reflexivity) || lia
     || (unfold Int32.INT_MAX; cbn; lia)).
Defined.

(** ** cookSalad and cookSandwich: the knife and the board *)

Section PantryStore.

Variables (ing : list Ingredient.t) (knives : list Knife.t)
  (boards : list CuttingBoard.t).

Lemma pantry_knife_reads {A} (f : Knife.t -> A) (i : nat) (k : Knife.t) :
  nth_error knives i = Some k ->
  Pantry.on_knife (Some i) (reads f) (Pantry.mk ing knives boards)
  = (Normal (f k), Pantry.mk ing knives boards).
Proof.
  intros Hat. unfold Pantry.on_knife, Pantry.deref, reads.
  cbn [Pantry.knives]. rewrite Hat. unfold Pantry.set_knives.
  cbn [Pantry.knives Pantry.ingredients Pantry.boards].
  rewrite (write_same _ _ _ Hat). reflexivity.
Qed.

Lemma pantry_board_reads {A} (f : CuttingBoard.t -> A) (i : nat)
  (b : CuttingBoard.t) :
  nth_error boards i = Some b ->
  Pantry.on_board (Some i) (reads f) (Pantry.mk ing knives boards)
  = (Normal (f b), Pantry.mk ing knives boards).
Proof.
  intros Hat. unfold Pantry.on_board, Pantry.deref, reads.
  cbn [Pantry.boards]. rewrite Hat. unfold Pantry.set_boards.
  cbn [Pantry.knives Pantry.ingredients Pantry.boards].
  rewrite (write_same _ _ _ Hat). reflexivity.
Qed.

Lemma pantry_on_ingredient {A} (m : M Ingredient.t A) (i : nat)
  (x x' : Ingredient.t) (r : completion A) :
  nth_error ing i = Some x -> m x = (r, x') ->
  Pantry.on_ingredient (Some i) m (Pantry.mk ing knives boards)
  = (r, Pantry.mk (Store.write i x' ing) knives boards).
Proof.
  intros Hat Hm. unfold Pantry.on_ingredient, Pantry.deref.
  cbn [Pantry.ingredients]. rewrite Hat, Hm. reflexivity.
Qed.

(** The knife test of both procedures, on a knife behind its pointer. *)
Lemma knife_guard (p : Store.ptr) (i : nat) (k : Knife.t) :
  p = Some i -> nth_error knives i = Some k ->
  null_or_not p (Pantry.on_knife p (reads Knife.canCut))
    (Pantry.mk ing knives boards)
  = (Normal (negb (Knife.canCut k)), Pantry.mk ing knives boards).
Proof.
  intros -> Hat. unfold null_or_not. cbn [Store.is_null]. unfold bind.
  rewrite (pantry_knife_reads Knife.canCut i k Hat). reflexivity.
Qed.

End PantryStore.

(** X21.  In [cookSalad] the board decides nothing and the knife is not
    worn: with a knife that can cut, a board pointer that is null or names
    a board in any state, and stocks that yield 120 g and 10 g, the call
    returns normally with the two stocks reduced and every knife and board
    as it was. *)
Theorem cookSalad_ignores_the_board
  (dish : SaladDish.t) (ing : list Ingredient.t) (knives : list Knife.t)
  (boards : list CuttingBoard.t) (ik iv io : nat) (k : Knife.t)
  (v v' o o' : Ingredient.t) :
  SaladDish.knife dish = Some ik -> nth_error knives ik = Some k ->
  Knife.canCut k = true ->
  (SaladDish.board dish = None
   \/ exists ib b, SaladDish.board dish = Some ib
                   /\ nth_error boards ib = Some b) ->
  SaladDish.veggies dish = Some iv -> nth_error ing iv = Some v ->
  Ingredient.useAmount (Double.of_int 120) v = (Normal tt, v') ->
  SaladDish.oil dish = Some io ->
  nth_error (Store.write iv v' ing) io = Some o ->
  Ingredient.useAmount (Double.of_int 10) o = (Normal tt, o') ->
  cookSalad dish (Pantry.mk ing knives boards)
  = (Normal tt,
     Pantry.mk (Store.write io o' (Store.write iv v' ing)) knives boards).
Proof.
  intros Hk Hatk Hcut Hboard Hv Hatv Huse Ho Hato Huse2.
  unfold cookSalad. unfold bind at 1.
  rewrite (knife_guard ing knives boards _ ik k Hk Hatk), Hcut. cbn [negb].
  assert (exists unsafe,
            null_or_not (SaladDish.board dish)
              (Pantry.on_board (SaladDish.board dish)
                 (reads CuttingBoard.isSafeForBread))
              (Pantry.mk ing knives boards)
            = (Normal unsafe, Pantry.mk ing knives boards)) as [unsafe Hb].
  { destruct Hboard as [-> | (ib & b & -> & Hatb)].
    - exists true. reflexivity.
    - eexists. unfold null_or_not. cbn [Store.is_null]. unfold bind.
      rewrite (pantry_board_reads ing knives boards
                 CuttingBoard.isSafeForBread ib b Hatb).
      reflexivity. }
  unfold bind at 1. rewrite Hb. unfold bind at 1.
  assert ((if unsafe then @ret Pantry.t unit tt else ret tt)
            (Pantry.mk ing knives boards)
          = (Normal tt, Pantry.mk ing knives boards)) as ->
    by (destruct unsafe; reflexivity).
  rewrite Hv, Ho. unfold bind.
  rewrite (pantry_on_ingredient ing knives boards _ iv v v' _ Hatv Huse).
  rewrite (pantry_on_ingredient _ knives boards _ io o o' _ Hato Huse2).
  reflexivity.
Qed.

Lemma cookSalad_ignores_the_board_witness :
  cookSalad
    (SaladDish.mk "Salad" (Some 0%nat) (Some 1%nat) (Some 0%nat) (Some 0%nat)
       (Some (Cook.mk "chef")))
    (Pantry.mk [makeIngredient "veg" (Double.of_int 1000);
                makeIngredient "oil" (Double.of_int 1000)]
       [Knife.new "knife" true 20 1]
       [CuttingBoard.new "board" false true 1])
  = (Normal tt,
     Pantry.mk [makeIngredient "veg" (Double.of_int 880);
                makeIngredient "oil" (Double.of_int 990)]
       [Knife.new "knife" true 20 1]
       [CuttingBoard.new "board" false true 1]).
Proof.
  rewrite (cookSalad_ignores_the_board
             (SaladDish.mk "Salad" (Some 0%nat) (Some 1%nat) (Some 0%nat)
                (Some 0%nat) (Some (Cook.mk "chef")))
             [makeIngredient "veg" (Double.of_int 1000);
              makeIngredient "oil" (Double.of_int 1000)]
             [Knife.new "knife" true 20 1]
             [CuttingBoard.new "board" false true 1]
             0 0 1 (Knife.new "knife" true 20 1)
             (makeIngredient "veg" (Double.of_int 1000))
             (makeIngredient "veg" (Double.of_int 880))
             (makeIngredient "oil" (Double.of_int 1000))
             (makeIngredient "oil" (Double.of_int 990)));
    try (reflexivity || (vm_compute; reflexivity)).
  right. exists 0%nat, (CuttingBoard.new "board" false true 1).
  split; reflexivity.
Defined.

(** X22.  The tool tests come before any consumption.  A knife that cannot
    cut stops [cookSalad] and [cookSandwich]; a missing board, or a board
    that is not safe for bread, stops [cookSandwich]; each time the call
    throws [ToolNotAvailableException] and nothing the dish points to has
    changed. *)
Theorem tool_tests_precede_consumption
  (ing : list Ingredient.t) (knives : list Knife.t)
  (boards : list CuttingBoard.t) :
  (forall (dish : SaladDish.t) (ik : nat) (k : Knife.t),
     SaladDish.knife dish = Some ik -> nth_error knives ik = Some k ->
     Knife.canCut k = false ->
     cookSalad dish (Pantry.mk ing knives boards)
     = (Throw ToolNotAvailableException, Pantry.mk ing knives boards))
  /\ (forall (dish : SandwichDish.t) (ik : nat) (k : Knife.t),
       SandwichDish.knife dish = Some ik -> nth_error knives ik = Some k ->
       Knife.canCut k = false ->
       cookSandwich dish (Pantry.mk ing knives boards)
       = (Throw ToolNotAvailableException, Pantry.mk ing knives boards))
  /\ (forall (dish : SandwichDish.t) (ik : nat) (k : Knife.t),
       SandwichDish.knife dish = Some ik -> nth_error knives ik = Some k ->
       Knife.canCut k = true ->
       SandwichDish.board dish = None ->
       cookSandwich dish (Pantry.mk ing knives boards)
       = (Throw ToolNotAvailableException, Pantry.mk ing knives boards))
  /\ (forall (dish : SandwichDish.t) (ik ib : nat) (k : Knife.t)
            (b : CuttingBoard.t),
       SandwichDish.knife dish = Some ik -> nth_error knives ik = Some k ->
       Knife.canCut k = true ->
       SandwichDish.board dish = Some ib -> nth_error boards ib = Some b ->
       CuttingBoard.isSafeForBread b = false ->
       cookSandwich dish (Pantry.mk ing knives boards)
       = (Throw ToolNotAvailableException, Pantry.mk ing knives boards)).
Proof.
  refine (conj _ (conj _ (conj _ _))).
  - intros dish ik k Hk Hatk Hcut. unfold cookSalad. unfold bind at 1.
    rewrite (knife_guard ing knives boards _ ik k Hk Hatk), Hcut. reflexivity.
  - intros dish ik k Hk Hatk Hcut. unfold cookSandwich. unfold bind at 1.
    rewrite (knife_guard ing knives boards _ ik k Hk Hatk), Hcut. reflexivity.
  - intros dish ik k Hk Hatk Hcut Hb. unfold cookSandwich. unfold bind at 1.
    rewrite (knife_guard ing knives boards _ ik k Hk Hatk), Hcut, Hb.
    reflexivity.
  - intros dish ik ib k b Hk Hatk Hcut Hb Hatb Hunsafe.
    unfold cookSandwich. unfold bind at 1.
    rewrite (knife_guard ing knives boards _ ik k Hk Hatk), Hcut, Hb.
    cbn [negb Store.is_null]. unfold bind at 1.
    rewrite (pantry_board_reads ing knives boards
               CuttingBoard.isSafeForBread ib b Hatb), Hunsafe.
    reflexivity.
Qed.

Lemma tool_tests_precede_consumption_witness :
  cookSandwich
    (SandwichDish.mk "Sandwich" (Some 0%nat) (Some 0%nat) (Some 0%nat)
       (Some 0%nat) (Some 0%nat) (Some (Cook.mk "chef")))
    (Pantry.mk [makeIngredient "bread" (Double.of_int 10)]
       [Knife.new "knife" true 20 1] [CuttingBoard.new "board" true true 1])
  = (Throw ToolNotAvailableException,
     Pantry.mk [makeIngredient "bread" (Double.of_int 10)]
       [Knife.new "knife" true 20 1] [CuttingBoard.new "board" true true 1]).
Proof.
  destruct (tool_tests_precede_consumption
              [makeIngredient "bread" (Double.of_int 10)]
              [Knife.new "knife" true 20 1]
              [CuttingBoard.new "board" true true 1]) as (_ & _ & _ & H).
  apply (H _ 0%nat 0%nat (Knife.new "knife" true 20 1)
           (CuttingBoard.new "board" true true 1)); reflexivity.
Defined.
